(** * goreleaser: the publishing pipe and the Gitea release client

    A shallow embedding of [internal/pipe/publish/publish.go] and
    [internal/client/gitea.go].  Go functions that act on the remote
    Gitea instance or on the process-wide logger are state-passing
    functions; every collaborator whose code is outside these two files
    (the Gitea SDK, the template engine, the middlewares, the stages)
    is a parameter: a field of a class or a component of the input. *)

From Stdlib Require Import String Ascii List ZArith Bool Lia DecimalString DecimalPos.
Import ListNotations.
Open Scope string_scope.
Open Scope list_scope.

Set Implicit Arguments.

(** ** Go values used by both packages *)

(** The two sentinel causes of a [*strconv.NumError]. *)
Inductive numErr : Type := ErrSyntax | ErrRange.

(** The dynamic types an [error] value takes in the two files.
    [ForeignError] stands for an error made by a collaborator (SDK,
    template engine, URL parser, a stage), told apart by its message;
    [Errorf prefix cause] is [fmt.Errorf] with a format that ends in
    [%w], [prefix] being the rendered text in front of the cause. *)
#[warnings="-register-all"]
Inductive error : Type :=
| ForeignError (msg : string)
| NumError (Func Num : string) (Err : numErr)
| ErrNoMilestoneFound (Title : string)
| RetriableError (Err : error)
| Errorf (prefix : string) (cause : error)
| JoinedError (Errors : list error).

(** A Go [(T, error)] pair of which exactly one side is meaningful. *)
Inductive result (A : Type) : Type :=
| Success (a : A)
| Failure (e : error).
Arguments Success {A} a.
Arguments Failure {A} e.

Module strings.

(** [strings.Split(s, sep)] for a one-byte separator: the pieces
    between the separators, never an empty slice. *)
Fixpoint Split (s : string) (sep : ascii) : list string :=
  match s with
  | EmptyString => [EmptyString]
  | String c rest =>
      if Ascii.eqb c sep then EmptyString :: Split rest sep
      else
        match Split rest sep with
        | piece :: pieces => String c piece :: pieces
        | [] => [String c EmptyString]
        end
  end.

(** Whether a byte occurs in a string. *)
Fixpoint ContainsByte (s : string) (b : ascii) : bool :=
  match s with
  | EmptyString => false
  | String c rest => Ascii.eqb c b || ContainsByte rest b
  end.

(** [line] is the text of [s] before its first newline, or all of
    [s] when it has none. *)
Definition FirstLine (s line : string) : Prop :=
  ContainsByte line "010" = false
  /\ (s = line \/ exists rest, s = (line ++ String "010" rest)%string).

End strings.

Module strconv.

Definition maxUint64 : Z := 2 ^ 64 - 1.

Definition digit (c : ascii) : option Z :=
  let n := Z.of_nat (nat_of_ascii c) in
  if (48 <=? n)%Z && (n <=? 57)%Z then Some (n - 48)%Z else None.

(** The digit loop of [ParseUint(s, 10, 64)]: it stops at the first
    byte that is no digit or at the first overflow, whichever comes
    first. *)
Fixpoint parseDigits (s : string) (n : Z) : Z + numErr :=
  match s with
  | EmptyString => inl n
  | String c rest =>
      match digit c with
      | None => inr ErrSyntax
      | Some d =>
          let n1 := (n * 10 + d)%Z in
          if (maxUint64 <? n1)%Z then inr ErrRange else parseDigits rest n1
      end
  end.

Definition ParseUint10 (s : string) : Z + numErr :=
  match s with
  | EmptyString => inr ErrSyntax
  | _ => parseDigits s 0
  end.

(** [strconv.ParseInt(s, 10, 64)]. *)
Definition ParseInt (s : string) : result Z :=
  match s with
  | EmptyString => Failure (NumError "ParseInt" s ErrSyntax)
  | String c rest =>
      let neg := Ascii.eqb c "-" in
      let body := if Ascii.eqb c "+" || neg then rest else s in
      let cutoff := (2 ^ 63)%Z in
      match ParseUint10 body with
      | inr ErrSyntax => Failure (NumError "ParseInt" s ErrSyntax)
      | inr ErrRange => Failure (NumError "ParseInt" s ErrRange)
      | inl un =>
          if negb neg && (cutoff <=? un)%Z
          then Failure (NumError "ParseInt" s ErrRange)
          else if neg && (cutoff <? un)%Z
          then Failure (NumError "ParseInt" s ErrRange)
          else Success (if neg then (- un)%Z else un)
      end
  end.

(** [strconv.FormatInt(i, 10)]. *)
Definition FormatInt (i : Z) : string := NilZero.string_of_int (Z.to_int i).

End strconv.

(** ** Configuration and run context, as far as the two files read them *)

Module config.

Record Repo : Type := mkRepo { Owner : string; Name : string }.

Record GiteaURLs : Type := mkGiteaURLs {
  API : string;
  Download : string;
  SkipTLSVerify : bool
}.

Record Release : Type := mkRelease {
  Gitea : Repo;
  Draft : bool;
  NameTemplate : string;
  ReleaseNotesMode : string
}.

Record Project : Type := mkProject {
  Project_GiteaURLs : GiteaURLs;
  Project_Release : Release
}.

Record CommitAuthor : Type := mkCommitAuthor {
  CommitAuthor_Name : string;
  CommitAuthor_Email : string
}.

End config.

Module context.

Record GitInfo : Type := mkGitInfo { CurrentTag : string; Commit : string }.

Record Context : Type := mkContext {
  Config : config.Project;
  Git : GitInfo;
  PreRelease : bool;
  FailFast : bool
}.

End context.

(** ** internal/pipe/publish *)

Module publish.
Import context.

(** [errhandler.Memo] as [Pipe.Run] uses it: the zero value,
    [Memorize] and [Error]. *)
Class MemoOps (Memo : Type) : Type := {
  Memo_zero : Memo;
  Memorize : Memo -> error -> Memo;
  Memo_Error : Memo -> option error
}.

(** Modelled from the spec: [errhandler.Memo] is not among the source
    files.  The spec describes the error memo as an ordered collection
    of non-fatal stage failures: memorizing appends, an empty memo
    means success, a non-empty one yields a single combined error that
    joins the memorized failures in order. *)
#[global] Instance ListMemo : MemoOps (list error) := {
  Memo_zero := [];
  Memorize := fun m e => m ++ [e];
  Memo_Error := fun m => match m with [] => None | _ => Some (JoinedError m) end
}.

Section Stages.

(** Everything besides the context that a stage reads or changes. *)
Variable World : Type.

Record State : Type := mkState { ctx : Context; world : World }.

(** [middleware.Action]: [func(ctx *context.Context) error]. *)
Definition Action : Type := State -> State * option error.

(** A [Publisher]; [ContinueOnError] is [None] when the publisher's
    type does not implement [Continuable]. *)
Record Publisher : Type := mkPublisher {
  String : string;
  Publish : Action;
  ContinueOnError : option bool
}.

Record Pipe : Type := mkPipe { pipeline : list Publisher }.

(** The three middlewares [Run] wraps around a publisher; their
    code is outside this package. *)
Class Middleware : Type := {
  skip_Maybe : Publisher -> Action -> Action;
  logging_PadLog : string -> Action -> Action;
  errhandler_Handle : Action -> Action
}.

End Stages.

Section Runner.

Context {World : Type} {mw : Middleware World}.
Context {Memo : Type} {mo : MemoOps Memo}.

(** The action [Run] invokes for one publisher. *)
Definition wrapped (publisher : Publisher World) : Action World :=
  skip_Maybe publisher
    (logging_PadLog (String publisher) (errhandler_Handle (Publish publisher))).

(** [ig, ok := publisher.(Continuable); ok && ig.ContinueOnError()] *)
Definition continuable (publisher : Publisher World) : bool :=
  match ContinueOnError publisher with
  | Some b => b
  | None => false
  end.

(** The variables live across iterations of the [for] loop, and a
    record of the invocations made so far (publisher name and what
    its action returned); the record is not in the source, it is
    there to state which stages ran. *)
Record Loop : Type := mkLoop {
  st : State World;
  memo : Memo;
  ran : list (string * option error)
}.

(** What one iteration does to the loop: go on, or return from [Run]. *)
Inductive Flow : Type :=
| Next (l : Loop)
| Return (s : State World) (invoked : list (string * option error)) (err : error).

Definition iteration (publisher : Publisher World) (l : Loop) : Flow :=
  let (s', r) := wrapped publisher (st l) in
  let invoked := ran l ++ [(String publisher, r)] in
  match r with
  | Some err =>
      if continuable publisher && negb (FailFast (ctx s'))
      then Next (mkLoop s'
                   (Memorize (memo l) (Errorf (String publisher ++ ": ") err))
                   invoked)
      else Return s' invoked
             (Errorf (String publisher ++ ": failed to publish artifacts: ") err)
  | None => Next (mkLoop s' (memo l) invoked)
  end.

Fixpoint range (publishers : list (Publisher World)) (l : Loop) : Flow :=
  match publishers with
  | [] => Next l
  | publisher :: rest =>
      match iteration publisher l with
      | Next l' => range rest l'
      | Return s invoked err => Return s invoked err
      end
  end.

Definition start (s : State World) : Loop := mkLoop s Memo_zero [].

(** [Pipe.Run]: the final state, the invocations made, the error. *)
Definition Run (p : Pipe World) (s : State World)
  : State World * list (string * option error) * option error :=
  match range (pipeline p) (start s) with
  | Next l => (st l, ran l, Memo_Error (memo l))
  | Return s' invoked err => (s', invoked, Some err)
  end.

(** The failures a list of invocations leaves in the memo. *)
Definition memorized (invoked : list (string * option error)) : list error :=
  flat_map (fun i => match snd i with
                     | Some err => [Errorf (fst i ++ ": ") err]
                     | None => []
                     end) invoked.

(** An invocation belongs to a stage: it carries the name of the
    stage, and an error only goes on record without ending the run
    when the stage is continuable. *)
Definition invocationOf (i : string * option error) (q : Publisher World) : Prop :=
  fst i = String q /\ (snd i <> None -> continuable q = true).

End Runner.

End publish.

(** ** Packages the client imports *)

Module os.
(** An open [*os.File], known by the name it was opened under. *)
Record File : Type := mkFile { File_Name : string }.
End os.

Module artifact.
Record Artifact : Type := mkArtifact { Name : string; Path : string }.
End artifact.

Module url.
(** [net/url.URL]; parsing and printing belong to the Go library. *)
Record URL : Type := mkURL {
  Scheme : string;
  Opaque : string;
  User : string;
  Host : string;
  Path : string;
  RawPath : string;
  RawQuery : string;
  Fragment : string
}.

Definition withPath (u : URL) (p : string) : URL :=
  mkURL (Scheme u) (Opaque u) (User u) (Host u) p (RawPath u) (RawQuery u) (Fragment u).
End url.

Module log.
Inductive Level : Type := DebugLevel | InfoLevel | WarnLevel.

Inductive Value : Type :=
| Str (s : string)
| Int (i : Z)
| Err (e : error).

(** One entry handed to the process-wide logger. *)
Record Entry : Type := mkEntry {
  Entry_Level : Level;
  Fields : list (string * Value);
  Entry_Message : string
}.
End log.

(** The types and calls of [code.gitea.io/sdk/gitea] that the client
    uses.  The SDK's own declarations are not among the source files:
    fields are the ones gitea.go reads or writes, and a pointer the
    client tests against [nil] is an [option]. *)
Module gitea.

Record Response : Type := mkResponse { StatusCode : Z }.

Record User : Type := mkUser {
  FullName : string;
  Email : string;
  UserName : string
}.

Record RepoCommit : Type := mkRepoCommit { Message : string }.

Record Commit : Type := mkCommit {
  Commit_SHA : string;
  Commit_RepoCommit : RepoCommit;
  Commit_Author : option User
}.

Record Compare : Type := mkCompare { Commits : list Commit }.

Inductive StateType : Type := StateOpen | StateClosed.

Record EditMilestoneOption : Type := mkEditMilestoneOption {
  EditMilestone_State : option StateType;
  EditMilestone_Title : string
}.

Record Milestone : Type := mkMilestone {
  Milestone_Title : string;
  Milestone_State : StateType
}.

Record Repository : Type := mkRepository { DefaultBranch : string }.

Record Identity : Type := mkIdentity {
  Identity_Name : string;
  Identity_Email : string
}.

Record FileOptions : Type := mkFileOptions {
  FileOptions_Message : string;
  BranchName : string;
  FileOptions_Author : Identity;
  Committer : Identity
}.

Record CreateFileOptions : Type := mkCreateFileOptions {
  Create_FileOptions : FileOptions;
  Create_Content : string
}.

Record UpdateFileOptions : Type := mkUpdateFileOptions {
  Update_FileOptions : FileOptions;
  Update_SHA : string;
  Update_Content : string
}.

Record ContentsResponse : Type := mkContentsResponse { Contents_SHA : string }.

Record FileResponse : Type := mkFileResponse { FileResponse_SHA : string }.

Record CreateReleaseOption : Type := mkCreateReleaseOption {
  Create_TagName : string;
  Create_Target : string;
  Create_Title : string;
  Create_Note : string;
  Create_IsDraft : bool;
  Create_IsPrerelease : bool
}.

Record EditReleaseOption : Type := mkEditReleaseOption {
  Edit_TagName : string;
  Edit_Target : string;
  Edit_Title : string;
  Edit_Note : string;
  Edit_IsDraft : option bool;
  Edit_IsPrerelease : option bool
}.

Record Release : Type := mkRelease {
  ID : Z;
  TagName : string;
  Target : string;
  Title : string;
  Note : string;
  IsDraft : bool;
  IsPrerelease : bool
}.

Record ListReleasesOptions : Type := mkListReleasesOptions {
  Page : Z;
  PageSize : Z
}.

Record Attachment : Type := mkAttachment { Attachment_Name : string }.

(** The client options gitea.go builds; [SetHTTPClient] is given an
    [http.Client] that differs from call to call only in
    [InsecureSkipVerify]. *)
Inductive ClientOption : Type :=
| SetHTTPClient (InsecureSkipVerify : bool)
| SetToken (token : string)
| SetContext (ctx : context.Context).

(** The methods of [*gitea.Client] that gitea.go calls. *)
Inductive Call : Type :=
| CompareCommits (owner repo prev current : string)
| EditMilestoneByName (owner repo title : string) (opt : EditMilestoneOption)
| GetRepo (owner repo : string)
| GetContents (owner repo ref filepath : string)
| CreateFile (owner repo filepath : string) (opt : CreateFileOptions)
| UpdateFile (owner repo filepath : string) (opt : UpdateFileOptions)
| CreateRelease (owner repo : string) (opt : CreateReleaseOption)
| ListReleases (owner repo : string) (opt : ListReleasesOptions)
| EditRelease (owner repo : string) (id : Z) (opt : EditReleaseOption)
| CreateReleaseAttachment (owner repo : string) (release : Z)
    (file : os.File) (filename : string).

(** The type of the first value a method returns. *)
Definition Answer (c : Call) : Type :=
  match c with
  | CompareCommits _ _ _ _ => Compare
  | EditMilestoneByName _ _ _ _ => Milestone
  | GetRepo _ _ => Repository
  | GetContents _ _ _ _ => ContentsResponse
  | CreateFile _ _ _ _ => FileResponse
  | UpdateFile _ _ _ _ => FileResponse
  | CreateRelease _ _ _ => Release
  | ListReleases _ _ _ => list Release
  | EditRelease _ _ _ _ => Release
  | CreateReleaseAttachment _ _ _ _ _ => Attachment
  end.

(** What a method returns: [(value, resp, nil)] or [(nil, resp, err)],
    [resp] possibly [nil] in both.  An SDK error is known by its
    message; the SDK cannot make an error of the client package. *)
Inductive Reply (A : Type) : Type :=
| Ok (val : A) (resp : option Response)
| Fail (resp : option Response) (msg : string).
Arguments Ok {A} val resp.
Arguments Fail {A} resp msg.

Definition Reply_resp {A : Type} (r : Reply A) : option Response :=
  match r with
  | Ok _ resp => resp
  | Fail resp _ => resp
  end.

Definition Reply_err {A : Type} (r : Reply A) : option error :=
  match r with
  | Ok _ _ => None
  | Fail _ msg => Some (ForeignError msg)
  end.

(** The SDK over a remote instance in state [Server], with client
    handles of type [Client]: the constructor, the application of one
    option to a handle, and the method calls. *)
Class SDK (Server Client : Type) : Type := {
  NewClient : string -> list ClientOption -> Server -> Server * (Client + string);
  applyOption : ClientOption -> Client -> Client + string;
  do : Client -> forall c : Call, Server -> Server * Reply (Answer c)
}.

(** What the SDK was asked, in order. *)
Inductive Event : Type :=
| Constructed (url : string) (options : list ClientOption)
| Called (c : Call).

End gitea.

(** ** internal/client: the Gitea client *)

Module client.
Import context.

(** [client.Repo]. *)
Record Repo : Type := mkRepo {
  Owner : string;
  Name : string;
  Branch : string
}.

Record ChangelogItem : Type := mkChangelogItem {
  SHA : string;
  Message : string;
  AuthorName : string;
  AuthorEmail : string;
  AuthorUsername : string
}.

(** Functions gitea.go calls whose code is elsewhere: the template
    engine, the URL and base64 codecs, [%q] quoting, and two helpers
    of the client package. *)
Class Collaborators : Type := {
  tmpl_Apply : Context -> string -> result string;
  url_Parse : string -> result url.URL;
  URL_String : url.URL -> string;
  strconv_Quote : string -> string;
  base64_EncodeToString : string -> string;
  Repo_String : Repo -> string;
  getReleaseNotes : string -> string -> string -> string
}.

Definition StatusNotFound : Z := 404.

(** A response is there and its status is 404. *)
Definition notFound (resp : option gitea.Response) : bool :=
  match resp with
  | Some resp => (gitea.StatusCode resp =? StatusNotFound)%Z
  | None => false
  end.

(** What an entry of the changelog owes to the commit it stands for. *)
Definition entryOf (commit : gitea.Commit) (item : ChangelogItem) : Prop :=
  SHA item = gitea.Commit_SHA commit
  /\ strings.FirstLine (gitea.Message (gitea.Commit_RepoCommit commit)) (Message item)
  /\ match gitea.Commit_Author commit with
     | Some author =>
         AuthorName item = gitea.FullName author
         /\ AuthorEmail item = gitea.Email author
         /\ AuthorUsername item = gitea.UserName author
     | None =>
         AuthorName item = "" /\ AuthorEmail item = "" /\ AuthorUsername item = ""
     end.

(** The entries stand for the commits one by one, in the same order. *)
Definition mirrors (commits : list gitea.Commit) (entries : list ChangelogItem)
  : Prop :=
  length entries = length commits
  /\ forall i commit,
       nth_error commits i = Some commit ->
       exists item, nth_error entries i = Some item /\ entryOf commit item.

Section Gitea.

Context {Server Client : Type} {sdk : gitea.SDK Server Client}.
Context {co : Collaborators}.

(** What the client acts on: the remote instance, the calls made
    to the SDK so far, the entries given to the logger so far. *)
Record World : Type := mkWorld {
  server : Server;
  calls : list gitea.Event;
  logs : list log.Entry
}.

Definition M (A : Type) : Type := World -> World * A.

Definition ret {A : Type} (a : A) : M A := fun w => (w, a).

Definition bind {A B : Type} (m : M A) (k : A -> M B) : M B :=
  fun w => let (w', a) := m w in k a w'.

Local Notation "x <- m ;; k" := (bind m (fun x => k))
  (at level 61, m at next level, right associativity).
Local Notation "m ;;; k" := (bind m (fun _ => k))
  (at level 61, right associativity).

(** A method call on the SDK client. *)
Definition invoke (c : Client) (call : gitea.Call)
  : M (gitea.Reply (gitea.Answer call)) :=
  fun w =>
    let (s, r) := gitea.do c call (server w) in
    (mkWorld s (calls w ++ [gitea.Called call]) (logs w), r).

Definition construct (instanceURL : string) (options : list gitea.ClientOption)
  : M (Client + string) :=
  fun w =>
    let (s, r) := gitea.NewClient instanceURL options (server w) in
    (mkWorld s (calls w ++ [gitea.Constructed instanceURL options]) (logs w), r).

(** [log.WithField(...)...Warn(msg)] and its siblings. *)
Definition emit (level : log.Level) (fields : list (string * log.Value))
  (msg : string) : M unit :=
  fun w => (mkWorld (server w) (calls w) (logs w ++ [log.mkEntry level fields msg]), tt).

Record giteaClient : Type := mkGiteaClient { client : Client }.

Definition getInstanceURL (ctx : Context) : result string :=
  let api := config.API (config.Project_GiteaURLs (Config ctx)) in
  match tmpl_Apply ctx api with
  | Failure err => Failure (Errorf "templating Gitea API URL: " err)
  | Success apiURL =>
      match url_Parse apiURL with
      | Failure err => Failure err
      | Success u =>
          let u := url.withPath u "" in
          let rawurl := URL_String u in
          if rawurl =? ""
          then Failure (ForeignError ("invalid URL: " ++ strconv_Quote api))
          else Success rawurl
      end
  end.

(** The [options] slice [newGitea] hands to [gitea.NewClient]. *)
Definition newGitea_options (ctx : Context) (token : string)
  : list gitea.ClientOption :=
  let options :=
    [gitea.SetHTTPClient
       (config.SkipTLSVerify (config.Project_GiteaURLs (Config ctx)))] in
  if negb (token =? "giteatoken")
  then options ++ [gitea.SetToken token]
  else options.

(** [ctx] is not nil where [newGitea] tests it: [getInstanceURL] has
    read through it before. *)
Definition newGitea (ctx : Context) (token : string) : M (result giteaClient) :=
  match getInstanceURL ctx with
  | Failure err => ret (Failure err)
  | Success instanceURL =>
      r <- construct instanceURL (newGitea_options ctx token) ;;
      match r with
      | inr msg => ret (Failure (ForeignError msg))
      | inl cl =>
          match gitea.applyOption (gitea.SetContext ctx) cl with
          | inr msg => ret (Failure (ForeignError msg))
          | inl cl' => ret (Success (mkGiteaClient cl'))
          end
      end
  end.

(** The body of the loop over [result.Commits]. *)
Definition changelogItem (commit : gitea.Commit) : ChangelogItem :=
  let item :=
    mkChangelogItem
      (gitea.Commit_SHA commit)
      (hd "" (strings.Split (gitea.Message (gitea.Commit_RepoCommit commit)) "010"))
      "" "" "" in
  match gitea.Commit_Author commit with
  | Some author =>
      mkChangelogItem (SHA item) (Message item)
        (gitea.FullName author) (gitea.Email author) (gitea.UserName author)
  | None => item
  end.

Definition Changelog (c : giteaClient) (_ : Context) (repo : Repo)
  (prev current : string) : M (list ChangelogItem * option error) :=
  r <- invoke (client c) (gitea.CompareCommits (Owner repo) (Name repo) prev current) ;;
  match r with
  | gitea.Fail _ msg => ret ([], Some (ForeignError msg))
  | gitea.Ok result _ =>
      ret (fold_left (fun log commit => log ++ [changelogItem commit])
             (gitea.Commits result) [],
           None)
  end.

Definition CloseMilestone (c : giteaClient) (_ : Context) (repo : Repo)
  (title : string) : M (option error) :=
  let closedState := gitea.StateClosed in
  let opts := gitea.mkEditMilestoneOption (Some closedState) title in
  r <- invoke (client c) (gitea.EditMilestoneByName (Owner repo) (Name repo) title opts) ;;
  match gitea.Reply_resp r with
  | Some resp =>
      if (gitea.StatusCode resp =? StatusNotFound)%Z
      then ret (Some (ErrNoMilestoneFound title))
      else ret (gitea.Reply_err r)
  | None => ret (gitea.Reply_err r)
  end.

(** Go returns the pair [("", err)] on failure: both values are
    kept, because [CreateFile] goes on with the first. *)
Definition getDefaultBranch (c : giteaClient) (_ : Context) (repo : Repo)
  : M (string * option error) :=
  let projectID := Repo_String repo in
  r <- invoke (client c) (gitea.GetRepo (Owner repo) (Name repo)) ;;
  match r with
  | gitea.Fail res msg =>
      let err := ForeignError msg in
      let fields := [("projectID", log.Str projectID)] in
      let fields :=
        match res with
        | Some res => fields ++ [("statusCode", log.Int (gitea.StatusCode res))]
        | None => fields
        end in
      emit log.WarnLevel (fields ++ [("error", log.Err err)])
        "error checking for default branch" ;;;
      ret ("", Some err)
  | gitea.Ok p _ => ret (gitea.DefaultBranch p, None)
  end.

(** The first block of [CreateFile]: the branch it settles on before
    it touches the file. *)
Definition CreateFile_branch (c : giteaClient) (ctx : Context) (repo : Repo)
  (path : string) : M string :=
  if negb (Branch repo =? "")
  then ret (Branch repo)
  else
    r <- getDefaultBranch c ctx repo ;;
    let (branch, err) := r in
    match err with
    | Some err =>
        emit log.WarnLevel
          [("fileName", log.Str path);
           ("projectID", log.Str (Repo_String repo));
           ("requestedBranch", log.Str branch);
           ("error", log.Err err)]
          "error checking for default branch, using master" ;;;
        ret branch
    | None => ret branch
    end.

(** The log entry [CreateFile] writes before it fetches the file. *)
Definition pushing (repo : Repo) : log.Entry :=
  log.mkEntry log.InfoLevel
    [("repository", log.Str (Repo_String repo));
     ("name", log.Str (Name repo));
     ("name", log.Str (Name repo))]
    "pushing".

Definition CreateFile (c : giteaClient) (ctx : Context)
  (commitAuthor : config.CommitAuthor) (repo : Repo) (content : string)
  (path message : string) : M (option error) :=
  branch <- CreateFile_branch c ctx repo path ;;
  let author :=
    gitea.mkIdentity (config.CommitAuthor_Name commitAuthor)
      (config.CommitAuthor_Email commitAuthor) in
  let fileOptions := gitea.mkFileOptions message branch author author in
  emit log.InfoLevel
    [("repository", log.Str (Repo_String repo));
     ("name", log.Str (Name repo));
     ("name", log.Str (Name repo))]
    "pushing" ;;;
  r <- invoke (client c) (gitea.GetContents (Owner repo) (Name repo) branch path) ;;
  match r with
  | gitea.Fail resp msg =>
      if match resp with
         | None => true
         | Some resp => negb (gitea.StatusCode resp =? StatusNotFound)%Z
         end
      then ret (Some (ForeignError msg))
      else
        r <- invoke (client c)
               (gitea.CreateFile (Owner repo) (Name repo) path
                  (gitea.mkCreateFileOptions fileOptions
                     (base64_EncodeToString content))) ;;
        ret (gitea.Reply_err r)
  | gitea.Ok currentFile _ =>
      r <- invoke (client c)
             (gitea.UpdateFile (Owner repo) (Name repo) path
                (gitea.mkUpdateFileOptions fileOptions
                   (gitea.Contents_SHA currentFile)
                   (base64_EncodeToString content))) ;;
      ret (gitea.Reply_err r)
  end.

Definition createRelease (c : giteaClient) (ctx : Context) (title body : string)
  : M (result gitea.Release) :=
  let releaseConfig := config.Project_Release (Config ctx) in
  let owner := config.Owner (config.Gitea releaseConfig) in
  let repoName := config.Name (config.Gitea releaseConfig) in
  let tag := CurrentTag (Git ctx) in
  let opts :=
    gitea.mkCreateReleaseOption tag (Commit (Git ctx)) title body
      (config.Draft releaseConfig) (PreRelease ctx) in
  r <- invoke (client c) (gitea.CreateRelease owner repoName opts) ;;
  match r with
  | gitea.Fail _ msg =>
      let err := ForeignError msg in
      emit log.DebugLevel [("error", log.Err err)] "error creating Gitea release" ;;;
      ret (Failure err)
  | gitea.Ok release _ =>
      emit log.InfoLevel [("id", log.Int (gitea.ID release))] "Gitea release created" ;;;
      ret (Success release)
  end.

(** Returns [(release, nil)], [(nil, nil)] when no release carries
    the tag, or [(nil, err)]. *)
Definition getExistingRelease (c : giteaClient) (owner repoName tagName : string)
  : M (option gitea.Release * option error) :=
  r <- invoke (client c)
         (gitea.ListReleases owner repoName (gitea.mkListReleasesOptions 0 0)) ;;
  match r with
  | gitea.Fail _ msg => ret (None, Some (ForeignError msg))
  | gitea.Ok releases _ =>
      ret (find (fun release => gitea.TagName release =? tagName) releases, None)
  end.

Definition updateRelease (c : giteaClient) (ctx : Context) (title body : string)
  (id : Z) : M (result gitea.Release) :=
  let releaseConfig := config.Project_Release (Config ctx) in
  let owner := config.Owner (config.Gitea releaseConfig) in
  let repoName := config.Name (config.Gitea releaseConfig) in
  let tag := CurrentTag (Git ctx) in
  let opts :=
    gitea.mkEditReleaseOption tag (Commit (Git ctx)) title body
      (Some (config.Draft releaseConfig)) (Some (PreRelease ctx)) in
  r <- invoke (client c) (gitea.EditRelease owner repoName id opts) ;;
  match r with
  | gitea.Fail _ msg =>
      let err := ForeignError msg in
      emit log.DebugLevel [("error", log.Err err)] "error updating Gitea release" ;;;
      ret (Failure err)
  | gitea.Ok release _ =>
      emit log.InfoLevel [("id", log.Int (gitea.ID release))] "Gitea release updated" ;;;
      ret (Success release)
  end.

(** Go returns the empty string next to every error. *)
Definition CreateRelease (c : giteaClient) (ctx : Context) (body : string)
  : M (result string) :=
  let releaseConfig := config.Project_Release (Config ctx) in
  match tmpl_Apply ctx (config.NameTemplate releaseConfig) with
  | Failure err => ret (Failure err)
  | Success title =>
      found <- getExistingRelease c
                 (config.Owner (config.Gitea releaseConfig))
                 (config.Name (config.Gitea releaseConfig))
                 (CurrentTag (Git ctx)) ;;
      match found with
      | (_, Some err) => ret (Failure err)
      | (Some release, None) =>
          let body :=
            getReleaseNotes (gitea.Note release) body
              (config.ReleaseNotesMode (config.Project_Release (Config ctx))) in
          r <- updateRelease c ctx title body (gitea.ID release) ;;
          match r with
          | Failure err => ret (Failure err)
          | Success release => ret (Success (strconv.FormatInt (gitea.ID release)))
          end
      | (None, None) =>
          r <- createRelease c ctx title body ;;
          match r with
          | Failure err => ret (Failure err)
          | Success release => ret (Success (strconv.FormatInt (gitea.ID release)))
          end
      end
  end.

Definition PublishRelease (c : giteaClient) (_ : Context) (_ : string)
  : M (option error) :=
  ret None.

Definition ReleaseURLTemplate (c : giteaClient) (ctx : Context) : result string :=
  match tmpl_Apply ctx (config.Download (config.Project_GiteaURLs (Config ctx))) with
  | Failure err => Failure (Errorf "templating Gitea download URL: " err)
  | Success downloadURL =>
      Success
        (downloadURL ++ "/"
           ++ config.Owner (config.Gitea (config.Project_Release (Config ctx))) ++ "/"
           ++ config.Name (config.Gitea (config.Project_Release (Config ctx)))
           ++ "/releases/download/{{ urlPathEscape .Tag }}/{{ .ArtifactName }}")%string
  end.

Definition Upload (c : giteaClient) (ctx : Context) (releaseID : string)
  (art : artifact.Artifact) (file : os.File) : M (option error) :=
  match strconv.ParseInt releaseID with
  | Failure err => ret (Some err)
  | Success giteaReleaseID =>
      let releaseConfig := config.Project_Release (Config ctx) in
      let owner := config.Owner (config.Gitea releaseConfig) in
      let repoName := config.Name (config.Gitea releaseConfig) in
      r <- invoke (client c)
             (gitea.CreateReleaseAttachment owner repoName giteaReleaseID file
                (artifact.Name art)) ;;
      match r with
      | gitea.Fail _ msg => ret (Some (RetriableError (ForeignError msg)))
      | gitea.Ok _ _ => ret None
      end
  end.

(** What [CreateRelease] relies on in the provider, given the
    releases [releasesOf s owner repo] the instance holds: a
    listing returns them all and changes nothing; a create adds
    one release with the tag asked for and an identifier not in
    use; an edit puts its answer in the place of a release with the
    identifier asked for, and keeps the tag when it is asked for
    the tag the release has. *)
Record ReleaseStore (releasesOf : Server -> string -> string -> list gitea.Release)
  : Prop := {
  list_complete :
    forall c owner repo opt s s' (releases : list gitea.Release) resp,
      gitea.do c (gitea.ListReleases owner repo opt) s = (s', gitea.Ok releases resp) ->
      releases = releasesOf s owner repo
      /\ releasesOf s' owner repo = releasesOf s owner repo;
  create_inserts :
    forall c owner repo opt s s' (rel : gitea.Release) resp,
      gitea.do c (gitea.CreateRelease owner repo opt) s = (s', gitea.Ok rel resp) ->
      gitea.TagName rel = gitea.Create_TagName opt
      /\ ~ In (gitea.ID rel) (map gitea.ID (releasesOf s owner repo))
      /\ exists before after,
           releasesOf s owner repo = before ++ after
           /\ releasesOf s' owner repo = before ++ rel :: after;
  edit_in_place :
    forall c owner repo id opt s s' (rel : gitea.Release) resp,
      gitea.do c (gitea.EditRelease owner repo id opt) s = (s', gitea.Ok rel resp) ->
      gitea.ID rel = id
      /\ exists before old after,
           releasesOf s owner repo = before ++ old :: after
           /\ gitea.ID old = id
           /\ releasesOf s' owner repo = before ++ rel :: after
           /\ (gitea.Edit_TagName opt = gitea.TagName old ->
               gitea.TagName rel = gitea.TagName old)
}.

(** The releases the instance holds for the repository of the
    release configuration. *)
Definition held (releasesOf : Server -> string -> string -> list gitea.Release)
  (ctx : Context) (w : World) : list gitea.Release :=
  releasesOf (server w)
    (config.Owner (config.Gitea (config.Project_Release (Config ctx))))
    (config.Name (config.Gitea (config.Project_Release (Config ctx)))).

(** Whether a release carries a tag: the test of the scan in
    [getExistingRelease]. *)
Definition hasTag (tagName : string) (release : gitea.Release) : bool :=
  gitea.TagName release =? tagName.

(** The request [CreateRelease] sends after a listing that returned
    [releases]. *)
Definition secondCall (ctx : Context) (title body : string)
  (releases : list gitea.Release) : gitea.Call :=
  let releaseConfig := config.Project_Release (Config ctx) in
  let owner := config.Owner (config.Gitea releaseConfig) in
  let repoName := config.Name (config.Gitea releaseConfig) in
  let tag := CurrentTag (Git ctx) in
  match find (hasTag tag) releases with
  | Some found =>
      gitea.EditRelease owner repoName (gitea.ID found)
        (gitea.mkEditReleaseOption tag (Commit (Git ctx)) title
           (getReleaseNotes (gitea.Note found) body
              (config.ReleaseNotesMode releaseConfig))
           (Some (config.Draft releaseConfig)) (Some (PreRelease ctx)))
  | None =>
      gitea.CreateRelease owner repoName
        (gitea.mkCreateReleaseOption tag (Commit (Git ctx)) title body
           (config.Draft releaseConfig) (PreRelease ctx))
  end.

(** The SDK answers [call], made in state [s], with the release
    [rel]: the call is an edit or a create of a release and it
    succeeds. *)
Definition answersRelease (c : Client) (call : gitea.Call) (s : Server)
  (rel : gitea.Release) : Prop :=
  match call as call0 return gitea.Reply (gitea.Answer call0) -> Prop with
  | gitea.EditRelease _ _ _ _ => fun r => exists resp, r = gitea.Ok rel resp
  | gitea.CreateRelease _ _ _ => fun r => exists resp, r = gitea.Ok rel resp
  | _ => fun _ => False
  end (snd (gitea.do c call s)).

End Gitea.

Arguments World : clear implicits.
Arguments giteaClient : clear implicits.
Arguments M : clear implicits.

End client.

(** ** A Gitea instance held in memory

    Not part of the program: a stand-in for the remote instance and
    for the collaborators, on which the general statements below are
    instantiated and run. *)

Module memory.

Record Remote : Type := mkRemote {
  releases : list gitea.Release;
  files : list (string * string);
  defaultBranch : option string;
  milestones : list string;
  commits : list gitea.Commit
}.

(** One more than the largest identifier in use. *)
Definition freshID (l : list gitea.Release) : Z :=
  fold_right (fun r m => Z.max (gitea.ID r + 1) m) 1%Z l.

Definition hasID (id : Z) (r : gitea.Release) : bool := (gitea.ID r =? id)%Z.

Fixpoint replaceFirst (id : Z) (rel : gitea.Release) (l : list gitea.Release)
  : list gitea.Release :=
  match l with
  | [] => []
  | r :: rest => if hasID id r then rel :: rest else r :: replaceFirst id rel rest
  end.

Definition edited (id : Z) (opt : gitea.EditReleaseOption) (old : gitea.Release)
  : gitea.Release :=
  gitea.mkRelease id
    (if gitea.Edit_TagName opt =? "" then gitea.TagName old else gitea.Edit_TagName opt)
    (gitea.Edit_Target opt)
    (gitea.Edit_Title opt) (gitea.Edit_Note opt)
    (match gitea.Edit_IsDraft opt with Some b => b | None => gitea.IsDraft old end)
    (match gitea.Edit_IsPrerelease opt with
     | Some b => b
     | None => gitea.IsPrerelease old
     end).

Fixpoint lookup (path : string) (l : list (string * string)) : option string :=
  match l with
  | [] => None
  | (p, sha) :: rest => if p =? path then Some sha else lookup path rest
  end.

Definition ok : option gitea.Response := Some (gitea.mkResponse 200).
Definition notFound : option gitea.Response := Some (gitea.mkResponse 404).

Definition serve (c : gitea.Call) (s : Remote)
  : Remote * gitea.Reply (gitea.Answer c) :=
  match c as c0 return Remote * gitea.Reply (gitea.Answer c0) with
  | gitea.CompareCommits _ _ _ _ => (s, gitea.Ok (gitea.mkCompare (commits s)) ok)
  | gitea.EditMilestoneByName _ _ title _ =>
      if existsb (String.eqb title) (milestones s)
      then (s, gitea.Ok (gitea.mkMilestone title gitea.StateClosed) ok)
      else (s, gitea.Fail notFound "milestone not found")
  | gitea.GetRepo _ _ =>
      match defaultBranch s with
      | Some b => (s, gitea.Ok (gitea.mkRepository b) ok)
      | None => (s, gitea.Fail None "connection refused")
      end
  | gitea.GetContents _ _ _ filepath =>
      match lookup filepath (files s) with
      | Some sha => (s, gitea.Ok (gitea.mkContentsResponse sha) ok)
      | None => (s, gitea.Fail notFound "file not found")
      end
  | gitea.CreateFile _ _ filepath opt =>
      let sha := ("blob:" ++ gitea.Create_Content opt)%string in
      (mkRemote (releases s) ((filepath, sha) :: files s) (defaultBranch s)
         (milestones s) (commits s),
       gitea.Ok (gitea.mkFileResponse sha) ok)
  | gitea.UpdateFile _ _ filepath opt =>
      let sha := ("blob:" ++ gitea.Update_Content opt)%string in
      (mkRemote (releases s) ((filepath, sha) :: files s) (defaultBranch s)
         (milestones s) (commits s),
       gitea.Ok (gitea.mkFileResponse sha) ok)
  | gitea.CreateRelease _ _ opt =>
      let rel :=
        gitea.mkRelease (freshID (releases s)) (gitea.Create_TagName opt)
          (gitea.Create_Target opt) (gitea.Create_Title opt) (gitea.Create_Note opt)
          (gitea.Create_IsDraft opt) (gitea.Create_IsPrerelease opt) in
      (mkRemote (rel :: releases s) (files s) (defaultBranch s)
         (milestones s) (commits s),
       gitea.Ok rel ok)
  | gitea.ListReleases _ _ _ => (s, gitea.Ok (releases s) ok)
  | gitea.EditRelease _ _ id opt =>
      match find (hasID id) (releases s) with
      | Some old =>
          let rel := edited id opt old in
          (mkRemote (replaceFirst id rel (releases s))
             (files s) (defaultBranch s) (milestones s) (commits s),
           gitea.Ok rel ok)
      | None => (s, gitea.Fail notFound "release not found")
      end
  | gitea.CreateReleaseAttachment _ _ id _ filename =>
      if existsb (hasID id) (releases s)
      then (s, gitea.Ok (gitea.mkAttachment filename) ok)
      else (s, gitea.Fail notFound "release not found")
  end.

(** A client handle is the list of options it was built with. *)
#[global] Instance sdk : gitea.SDK Remote (list gitea.ClientOption) := {
  NewClient := fun _ options s => (s, inl options);
  applyOption := fun o c => inl (c ++ [o]);
  do := fun _ c s => serve c s
}.

#[global] Instance collaborators : client.Collaborators := {
  tmpl_Apply := fun _ s => Success s;
  url_Parse := fun s => Success (url.mkURL "https" "" "" s "/api/v1" "" "" "");
  URL_String := fun u => (url.Scheme u ++ "://" ++ url.Host u ++ url.Path u)%string;
  strconv_Quote := fun s => s;
  base64_EncodeToString := fun s => s;
  Repo_String := fun r => (client.Owner r ++ "/" ++ client.Name r)%string;
  getReleaseNotes := fun existing current _ =>
                       if existing =? "" then current else existing
}.

Definition empty : Remote := mkRemote [] [] None [] [].

Definition twoCommits : list gitea.Commit :=
  [gitea.mkCommit "c0ffee"
     (gitea.mkRepoCommit (String.append "fix: retry upload"
                            (String "010" (String "010" "Closes the flaky path."))))
     (Some (gitea.mkUser "Ada L" "ada@example.com" "ada"));
   gitea.mkCommit "decaf0" (gitea.mkRepoCommit "docs: typo") None].

Definition withCommits : Remote := mkRemote [] [] None [] twoCommits.

Definition withMilestone : Remote := mkRemote [] [] None ["v1.0.0"] [].

Definition withBranch : Remote := mkRemote [] [] (Some "main") [] [].

Definition repo0 : client.Repo := client.mkRepo "acme" "tap" "".

Definition author0 : config.CommitAuthor :=
  config.mkCommitAuthor "bot" "bot@example.com".

Definition world (s : Remote) : client.World Remote :=
  client.mkWorld s [] [].

Definition handle : client.giteaClient (list gitea.ClientOption) :=
  client.mkGiteaClient [].

Definition ctx0 : context.Context :=
  context.mkContext
    (config.mkProject
       (config.mkGiteaURLs "gitea.example.com" "https://gitea.example.com" false)
       (config.mkRelease (config.mkRepo "acme" "tool") false "{{ .Tag }}" "keep-existing"))
    (context.mkGitInfo "v1.0.0" "0123abc")
    false false.

Definition tarball : artifact.Artifact :=
  artifact.mkArtifact "tool.tar.gz" "dist/tool.tar.gz".

Definition tarballFile : os.File := os.mkFile "dist/tool.tar.gz".

Definition repoMain : client.Repo := client.mkRepo "acme" "tap" "main".

(** An SDK that reaches no instance: every call fails without a
    response, and so does the construction of a client. *)
Definition offline : gitea.SDK Remote (list gitea.ClientOption) := {|
  gitea.NewClient := fun _ _ s => (s, inr "connection refused");
  gitea.applyOption := fun o c => inl (c ++ [o]);
  gitea.do := fun _ c s => (s, gitea.Fail None "connection refused")
|}.

(** Collaborators whose template engine rejects every template. *)
Definition brokenTemplates : client.Collaborators := {|
  client.tmpl_Apply := fun _ _ => Failure (ForeignError "template: unexpected EOF");
  client.url_Parse := client.url_Parse (Collaborators := collaborators);
  client.URL_String := client.URL_String (Collaborators := collaborators);
  client.strconv_Quote := fun s => s;
  client.base64_EncodeToString := fun s => s;
  client.Repo_String := client.Repo_String (Collaborators := collaborators);
  client.getReleaseNotes := client.getReleaseNotes (Collaborators := collaborators)
|}.

Definition release1 : gitea.Release :=
  gitea.mkRelease 1 "v1.0.0" "0123abc" "v1.0.0" "hand-written notes" false false.

Definition release2 : gitea.Release :=
  gitea.mkRelease 2 "v1.0.0" "4567def" "v1.0.0 again" "" false false.

Definition release0 : gitea.Release :=
  gitea.mkRelease 3 "v0.9.0" "89abcde" "v0.9.0" "older" false false.

Definition withReleases : Remote :=
  mkRemote [release0; release1; release2] [] None [] [].

Definition withFile : Remote :=
  mkRemote [] [("Formula/tool.rb", "blob:old")] (Some "main") [] [].

End memory.

(** ** Three stages to run the pipe on

    Not part of the program: middlewares that pass the action through,
    and the stages the spec uses as its example: A fails and is
    continuable, B fails and is not, C succeeds. *)

Module stages.
Import publish.

#[global] Instance passThrough : Middleware unit := {
  skip_Maybe := fun _ action => action;
  logging_PadLog := fun _ action => action;
  errhandler_Handle := fun action => action
}.

Definition aDown : error := ForeignError "a is down".
Definition bDown : error := ForeignError "b is down".

Definition failing (err : error) : Action unit := fun s => (s, Some err).

Definition succeeding : Action unit := fun s => (s, None).

Definition A : Publisher unit := mkPublisher "A" (failing aDown) (Some true).
Definition B : Publisher unit := mkPublisher "B" (failing bDown) None.
Definition C : Publisher unit := mkPublisher "C" succeeding None.

Definition s0 : State unit := mkState memory.ctx0 tt.

(** The same run in fail-fast mode. *)
Definition sFast : State unit :=
  mkState
    (context.mkContext (context.Config memory.ctx0) (context.Git memory.ctx0)
       false true)
    tt.

End stages.

Unset Implicit Arguments.

(** * The Go library functions on sample inputs *)

Module go_facts.

Example Split_three_pieces :
  strings.Split (String "a" (String "010" (String "b" (String "010" "")))) "010"
  = ["a"; "b"; ""].
Proof. reflexivity. Qed.

Example Split_no_separator : strings.Split "abc" "010" = ["abc"].
Proof. reflexivity. Qed.

Example Split_empty : strings.Split "" "010" = [""].
Proof. reflexivity. Qed.

Example ParseInt_smallest :
  strconv.ParseInt "-9223372036854775808" = Success (-9223372036854775808)%Z.
Proof. reflexivity. Qed.

Example ParseInt_too_large :
  strconv.ParseInt "9223372036854775808"
  = Failure (NumError "ParseInt" "9223372036854775808" ErrRange).
Proof. reflexivity. Qed.

Example ParseInt_sign : strconv.ParseInt "+12" = Success 12%Z.
Proof. reflexivity. Qed.

Example ParseInt_underscore :
  strconv.ParseInt "1_000" = Failure (NumError "ParseInt" "1_000" ErrSyntax).
Proof. reflexivity. Qed.

Example ParseInt_empty : strconv.ParseInt "" = Failure (NumError "ParseInt" "" ErrSyntax).
Proof. reflexivity. Qed.

Example ParseInt_lone_sign :
  strconv.ParseInt "-" = Failure (NumError "ParseInt" "-" ErrSyntax).
Proof. reflexivity. Qed.

Example FormatInt_samples :
  strconv.FormatInt 0 = "0" /\ strconv.FormatInt 42 = "42"
  /\ strconv.FormatInt (-7) = "-7".
Proof. repeat split. Qed.

End go_facts.

(** * Properties of the publishing pipe *)

Module publish_facts.
Import context publish.

Section Runner.

Context {World : Type} {mw : Middleware World}.
Context {Memo : Type} {mo : MemoOps Memo}.

Lemma range_app (pre post : list (Publisher World)) (l : @Loop World Memo) :
  range (pre ++ post) l =
  match range pre l with
  | Next l' => range post l'
  | Return s invoked err => Return s invoked err
  end.
Proof.
  revert l; induction pre as [|p pre IH]; intros l; simpl.
  - reflexivity.
  - destruct (iteration p l); [apply IH | reflexivity].
Qed.

Lemma iteration_Next_ran (p : Publisher World) (l l' : @Loop World Memo) :
  iteration p l = Next l' ->
  map fst (ran l') = map fst (ran l) ++ [String p].
Proof.
  unfold iteration. destruct (wrapped p (st l)) as [s' [err|]].
  - destruct (continuable p && negb (FailFast (ctx s'))); [|discriminate].
    intros E; injection E as <-; simpl. now rewrite map_app.
  - intros E; injection E as <-; simpl. now rewrite map_app.
Qed.

Lemma range_Next_ran (ps : list (Publisher World)) (l l' : @Loop World Memo) :
  range ps l = Next l' ->
  map fst (ran l') = map fst (ran l) ++ map (@String World) ps.
Proof.
  revert l; induction ps as [|p ps IH]; intros l; simpl.
  - intros E; injection E as <-. now rewrite app_nil_r.
  - destruct (iteration p l) as [l1|] eqn:E1; [|discriminate].
    intros E. rewrite (IH _ E), (iteration_Next_ran _ _ _ E1), <- app_assoc.
    reflexivity.
Qed.

(** C2.  Let a stage's action return an error after the stages
    before it let the loop go on.  If the stage is continuable and
    the context is not in fail-fast mode, the error, prefixed with
    the stage name, is memorized and the loop goes on with the
    stages that follow.  In every other case [Run] returns at once
    an error that wraps the stage name and the cause, and the
    stages invoked are those up to the failing one, none after. *)
Theorem Run_stage_error
  (pre post : list (Publisher World)) (publisher : Publisher World)
  (s s' : State World) (l : @Loop World Memo) (err : error) :
  range pre (start s) = Next l ->
  wrapped publisher (st l) = (s', Some err) ->
  (continuable publisher = true /\ FailFast (ctx s') = false ->
   range (pre ++ publisher :: post) (start s) =
   range post
     (mkLoop s'
        (Memorize (memo l) (Errorf (String publisher ++ ": ") err))
        (ran l ++ [(String publisher, Some err)])))
  /\
  (continuable publisher = false \/ FailFast (ctx s') = true ->
   Run (mkPipe (pre ++ publisher :: post)) s =
   (s', ran l ++ [(String publisher, Some err)],
    Some (Errorf (String publisher ++ ": failed to publish artifacts: ") err))
   /\ map fst (ran l ++ [(String publisher, Some err)]) =
      map (@String World) (pre ++ [publisher])).
Proof.
  intros Hpre Hrun. split.
  - intros [Hc Hf].
    rewrite range_app, Hpre. simpl. unfold iteration.
    rewrite Hrun, Hc, Hf. reflexivity.
  - intros Hfatal.
    assert (Hcond : continuable publisher && negb (FailFast (ctx s')) = false).
    { destruct Hfatal as [-> | ->]; [reflexivity | apply andb_false_r]. }
    split.
    + unfold Run; simpl. rewrite range_app, Hpre. simpl. unfold iteration.
      rewrite Hrun, Hcond. reflexivity.
    + rewrite !map_app, (range_Next_ran _ _ _ Hpre). reflexivity.
Qed.

End Runner.

Section ListMemo.

Context {World : Type} {mw : Middleware World}.

Lemma memorized_app (a b : list (string * option error)) :
  memorized (a ++ b) = memorized a ++ memorized b.
Proof. unfold memorized. apply flat_map_app. Qed.

Lemma iteration_memo (p : Publisher World) (l l' : @Loop World (list error)) :
  memo l = memorized (ran l) ->
  iteration p l = Next l' ->
  memo l' = memorized (ran l').
Proof.
  intros Hinv. unfold iteration.
  destruct (wrapped p (st l)) as [s' [err|]].
  - destruct (continuable p && negb (FailFast (ctx s'))); [|discriminate].
    intros E; injection E as <-; simpl.
    rewrite memorized_app, Hinv. reflexivity.
  - intros E; injection E as <-; simpl.
    rewrite memorized_app, Hinv. simpl. now rewrite app_nil_r.
Qed.

Lemma range_memo (ps : list (Publisher World)) (l l' : @Loop World (list error)) :
  memo l = memorized (ran l) ->
  range ps l = Next l' ->
  memo l' = memorized (ran l').
Proof.
  revert l; induction ps as [|p ps IH]; intros l Hinv; simpl.
  - intros E; injection E as <-. exact Hinv.
  - destruct (iteration p l) as [l1|] eqn:E1; [|discriminate].
    apply IH. eapply iteration_memo; eassumption.
Qed.

(** C3.  When the loop reaches the end of the stage list, every
    stage has been invoked, in order; the memo holds the failures
    of the invoked stages in that order; [Run] returns success
    exactly when the memo is empty and otherwise one error that
    joins the memo. *)
Theorem Run_end_of_list (p : Pipe World) (s : State World)
  (l : @Loop World (list error)) :
  range (pipeline p) (start s) = Next l ->
  map fst (ran l) = map (@String World) (pipeline p)
  /\ memo l = memorized (ran l)
  /\ (exists r, Run p s = (st l, ran l, r)
                /\ (r = None <-> memo l = [])
                /\ (memo l <> [] -> r = Some (JoinedError (memo l)))).
Proof.
  intros Hend. split; [|split].
  - apply (range_Next_ran _ _ _ Hend).
  - eapply range_memo; [|exact Hend]. reflexivity.
  - exists (Memo_Error (memo l)). unfold Run. rewrite Hend.
    split; [reflexivity|]. simpl.
    destruct (memo l) as [|e m]; split; easy.
Qed.

End ListMemo.

End publish_facts.

(** * Properties of the Gitea client *)

Module client_facts.
Import context client.

(** Unfolds the state-passing plumbing of a client function. *)
Ltac plumbing := unfold bind, ret, invoke, construct, emit in *; simpl in *.

Section Gitea.

Context {Server Client : Type} {sdk : gitea.SDK Server Client}.
Context {co : Collaborators}.

(** C9.  [PublishRelease] returns nil for every context and every
    release identifier, and leaves the instance, the list of SDK
    calls and the log as they were. *)
Theorem PublishRelease_noop (c : giteaClient Client) (ctx : Context)
  (releaseID : string) (w : World Server) :
  PublishRelease c ctx releaseID w = (w, None).
Proof. reflexivity. Qed.

Lemma newGitea_options_token (ctx : Context) (token t : string) :
  In (gitea.SetToken t) (newGitea_options ctx token) <->
  t = token /\ token <> "giteatoken".
Proof.
  unfold newGitea_options.
  destruct (String.eqb_spec token "giteatoken") as [E|N]; simpl.
  - split; [intros [H|[]]; discriminate | intros [_ H]; contradiction].
  - split.
    + intros [H|[H|[]]]; [discriminate|]. injection H as <-. now split.
    + intros [-> _]. right; left; reflexivity.
Qed.

(** C10.  Once the instance URL is resolved, [newGitea] constructs
    the SDK client exactly once; for the token [giteatoken] no
    option in that construction sets a token, and for every other
    token the construction sets that token and no other. *)
Theorem newGitea_token (ctx : Context) (token instanceURL : string) (w : World Server) :
  getInstanceURL ctx = Success instanceURL ->
  exists options,
    calls (fst (newGitea ctx token w)) =
    calls w ++ [gitea.Constructed instanceURL options]
    /\ (token = "giteatoken" -> forall t, ~ In (gitea.SetToken t) options)
    /\ (token <> "giteatoken" ->
        In (gitea.SetToken token) options
        /\ forall t, In (gitea.SetToken t) options -> t = token).
Proof.
  intros Hurl. exists (newGitea_options ctx token). split; [|split].
  - unfold newGitea. rewrite Hurl. plumbing.
    destruct (gitea.NewClient instanceURL (newGitea_options ctx token) (server w))
      as [s [cl|msg]]; simpl; [|reflexivity].
    destruct (gitea.applyOption (gitea.SetContext ctx) cl); reflexivity.
  - intros E t H. apply newGitea_options_token in H. tauto.
  - intros N. split.
    + apply newGitea_options_token. now split.
    + intros t H. apply newGitea_options_token in H. tauto.
Qed.

(** C7.  [CloseMilestone] makes one call, an edit by name that sets
    the state to closed.  It returns [ErrNoMilestoneFound] with the
    title exactly when the response to that call has status 404;
    with any other response, or none, it returns the error of the
    call, nil when the call succeeded. *)
Theorem CloseMilestone_not_found (c : giteaClient Client) (ctx : Context)
  (repo : Repo) (title : string) (w : World Server) :
  let call :=
    gitea.EditMilestoneByName (Owner repo) (Name repo) title
      (gitea.mkEditMilestoneOption (Some gitea.StateClosed) title) in
  let reply := snd (gitea.do (client c) call (server w)) in
  let w' := fst (CloseMilestone c ctx repo title w) in
  let r := snd (CloseMilestone c ctx repo title w) in
  calls w' = calls w ++ [gitea.Called call]
  /\ server w' = fst (gitea.do (client c) call (server w))
  /\ (r = Some (ErrNoMilestoneFound title) <->
      exists resp, gitea.Reply_resp reply = Some resp
                   /\ gitea.StatusCode resp = 404%Z)
  /\ ((forall resp, gitea.Reply_resp reply = Some resp ->
                    gitea.StatusCode resp <> 404%Z) ->
      r = gitea.Reply_err reply).
Proof.
  unfold CloseMilestone, bind, invoke, ret. cbv zeta. unfold StatusNotFound.
  destruct (gitea.do (client c) _ (server w)) as [s reply]; simpl.
  destruct reply as [val [resp|] | [resp|] msg]; simpl;
    try destruct (Z.eqb_spec (gitea.StatusCode resp) 404) as [E|N]; simpl;
    (split; [reflexivity|]); (split; [reflexivity|]); split.
  (* a success with status 404 *)
  - split; [intros _; now exists resp | reflexivity].
  - intros H. contradiction (H resp eq_refl).
  (* a success with another status *)
  - split; [discriminate|]. intros (resp' & H & E). congruence.
  - reflexivity.
  (* a success without response *)
  - split; [discriminate|]. intros (resp' & H & _). discriminate.
  - reflexivity.
  (* a failure with status 404 *)
  - split; [intros _; now exists resp | reflexivity].
  - intros H. contradiction (H resp eq_refl).
  (* a failure with another status *)
  - split; [discriminate|]. intros (resp' & H & E). congruence.
  - reflexivity.
  (* a failure without response *)
  - split; [discriminate|]. intros (resp' & H & _). discriminate.
  - reflexivity.
Qed.

(** C6, as the code has it.  When [Upload] fails, either the
    release identifier parsed, the one call made is the attachment
    call for that release, that call failed, and the error returned is
    the error of that call wrapped in [RetriableError], with nothing
    logged; or the identifier did not parse as a base-10 [int64], and
    the [strconv] error is returned as it is, with no call made. *)
Theorem Upload_failure (c : giteaClient Client) (ctx : Context) (releaseID : string)
  (art : artifact.Artifact) (file : os.File) (w w' : World Server) (e : error) :
  Upload c ctx releaseID art file w = (w', Some e) ->
  (exists id resp msg,
      strconv.ParseInt releaseID = Success id
      /\ gitea.do (client c)
           (gitea.CreateReleaseAttachment
              (config.Owner (config.Gitea (config.Project_Release (Config ctx))))
              (config.Name (config.Gitea (config.Project_Release (Config ctx))))
              id file (artifact.Name art)) (server w)
         = (server w', gitea.Fail resp msg)
      /\ e = RetriableError (ForeignError msg)
      /\ calls w' =
         calls w ++
         [gitea.Called
            (gitea.CreateReleaseAttachment
               (config.Owner (config.Gitea (config.Project_Release (Config ctx))))
               (config.Name (config.Gitea (config.Project_Release (Config ctx))))
               id file (artifact.Name art))]
      /\ logs w' = logs w)
  \/ (strconv.ParseInt releaseID = Failure e
      /\ (forall cause, e <> RetriableError cause)
      /\ w' = w).
Proof.
  unfold Upload. destruct (strconv.ParseInt releaseID) as [id|err] eqn:Eparse.
  - unfold bind, invoke, ret.
    destruct (gitea.do (client c) _ (server w)) as [s [a resp|resp msg]] eqn:Ecall;
      intros H; [discriminate H|]. injection H as <- <-.
    left. exists id, resp, msg.
    split; [reflexivity|]. split; [exact Ecall|]. repeat split.
  - unfold ret. intros H; injection H as <- <-. right. repeat split.
    intros cause ->. unfold strconv.ParseInt in Eparse.
    destruct releaseID as [|ch rest]; [discriminate|].
    destruct (strconv.ParseUint10 _) as [un|[|]]; try discriminate.
    destruct (_ && _); [discriminate|].
    destruct (_ && _); discriminate.
Qed.

(** ** Changelog *)

Lemma Split_first_line (s : string) :
  strings.FirstLine s (hd "" (strings.Split s "010")).
Proof.
  unfold strings.FirstLine. induction s as [|ch rest [IHc IHs]]; simpl.
  - split; [reflexivity | left; reflexivity].
  - destruct (Ascii.eqb_spec ch "010") as [->|Hch]; simpl.
    + split; [reflexivity | right; exists rest; reflexivity].
    + assert (Hne : Ascii.eqb ch "010" = false) by now apply Ascii.eqb_neq.
      destruct (strings.Split rest "010") as [|piece pieces]; simpl in *.
      * rewrite Hne. split; [reflexivity|].
        destruct IHs as [->|[rest' ->]]; [left; reflexivity|].
        right; exists rest'; reflexivity.
      * rewrite Hne, IHc. split; [reflexivity|].
        destruct IHs as [->|[rest' ->]]; [left; reflexivity|].
        right; exists rest'; reflexivity.
Qed.

Lemma append_loop_map {A B : Type} (f : A -> B) (l : list A) (acc : list B) :
  fold_left (fun out a => out ++ [f a]) l acc = acc ++ map f l.
Proof.
  revert acc; induction l as [|a l IH]; intros acc; simpl.
  - now rewrite app_nil_r.
  - rewrite IH, <- app_assoc. reflexivity.
Qed.

Lemma changelogItem_entryOf (commit : gitea.Commit) :
  entryOf commit (changelogItem commit).
Proof.
  unfold entryOf, changelogItem.
  destruct (gitea.Commit_Author commit) as [author|]; simpl;
    (split; [reflexivity|]); (split; [apply Split_first_line|]);
    repeat split.
Qed.

Lemma map_changelogItem_mirrors (commits : list gitea.Commit) :
  mirrors commits (map changelogItem commits).
Proof.
  split; [apply length_map|].
  intros i commit Hi. exists (changelogItem commit). split.
  - now apply map_nth_error.
  - apply changelogItem_entryOf.
Qed.

(** C8.  A [Changelog] call that returns no error made one
    compare-commits call, which succeeded, and its entries stand
    for the commits of the answer one by one in the order of the
    answer: same hash, the message cut before its first newline,
    the author's name, email and username when the commit has an
    author and empty strings when it has none. *)
Theorem Changelog_mirrors_commits (c : giteaClient Client) (ctx : Context)
  (repo : Repo) (prev current : string) (w w' : World Server)
  (entries : list ChangelogItem) :
  Changelog c ctx repo prev current w = (w', (entries, None)) ->
  exists result resp,
    gitea.do (client c)
      (gitea.CompareCommits (Owner repo) (Name repo) prev current) (server w)
    = (server w', gitea.Ok result resp)
    /\ calls w' =
       calls w ++
       [gitea.Called (gitea.CompareCommits (Owner repo) (Name repo) prev current)]
    /\ mirrors (gitea.Commits result) entries.
Proof.
  unfold Changelog. plumbing.
  destruct (gitea.do (client c) _ (server w)) as [s [result resp|resp msg]];
    simpl; intros H; injection H as <- <-; [|discriminate].
  exists result, resp. repeat split.
  - rewrite append_loop_map. apply length_map.
  - rewrite append_loop_map. apply map_changelogItem_mirrors.
Qed.

(** ** CreateFile *)

(** [CreateFile] from the point where the branch is settled and
    the answer to the fetch is known. *)
Lemma CreateFile_run (c : giteaClient Client) (ctx : Context)
  (commitAuthor : config.CommitAuthor) (repo : Repo)
  (content path message : string) (w w1 : World Server) (branch : string)
  (s : Server) (reply : gitea.Reply gitea.ContentsResponse) :
  CreateFile_branch c ctx repo path w = (w1, branch) ->
  gitea.do (client c) (gitea.GetContents (Owner repo) (Name repo) branch path)
    (server w1) = (s, reply) ->
  let author :=
    gitea.mkIdentity (config.CommitAuthor_Name commitAuthor)
      (config.CommitAuthor_Email commitAuthor) in
  let fileOptions := gitea.mkFileOptions message branch author author in
  let get := gitea.GetContents (Owner repo) (Name repo) branch path in
  let next (call : gitea.Call) :=
    (mkWorld (fst (gitea.do (client c) call s))
       (calls w1 ++ [gitea.Called get; gitea.Called call])
       (logs w1 ++ [pushing repo]),
     gitea.Reply_err (snd (gitea.do (client c) call s))) in
  CreateFile c ctx commitAuthor repo content path message w =
  match reply with
  | gitea.Fail resp msg =>
      if notFound resp
      then next (gitea.CreateFile (Owner repo) (Name repo) path
                   (gitea.mkCreateFileOptions fileOptions
                      (base64_EncodeToString content)))
      else (mkWorld s (calls w1 ++ [gitea.Called get]) (logs w1 ++ [pushing repo]),
            Some (ForeignError msg))
  | gitea.Ok currentFile _ =>
      next (gitea.UpdateFile (Owner repo) (Name repo) path
              (gitea.mkUpdateFileOptions fileOptions
                 (gitea.Contents_SHA currentFile)
                 (base64_EncodeToString content)))
  end.
Proof.
  intros Hbranch Hget. cbv zeta. unfold CreateFile, bind.
  rewrite Hbranch. unfold emit, invoke; simpl. rewrite Hget.
  destruct reply as [currentFile resp | [resp|] msg]; simpl.
  - destruct (gitea.do (client c) (gitea.UpdateFile _ _ _ _) s) as [s2 r2]; simpl.
    rewrite <- app_assoc. reflexivity.
  - destruct (gitea.StatusCode resp =? StatusNotFound)%Z; simpl.
    + destruct (gitea.do (client c) (gitea.CreateFile _ _ _ _) s) as [s2 r2]; simpl.
      rewrite <- app_assoc. reflexivity.
    + reflexivity.
  - reflexivity.
Qed.

(** C4.  After the branch is settled, [CreateFile] fetches the
    contents at that branch and path.  A failure with a 404
    response is followed by one create call, whose error is the
    result; any other failure is returned as it is, with no further
    call; a success is followed by one update call that carries the
    SHA of the fetched contents, and by no create call. *)
Theorem CreateFile_three_way (c : giteaClient Client) (ctx : Context)
  (commitAuthor : config.CommitAuthor) (repo : Repo)
  (content path message : string) (w w1 : World Server) (branch : string)
  (s : Server) (reply : gitea.Reply gitea.ContentsResponse) :
  CreateFile_branch c ctx repo path w = (w1, branch) ->
  gitea.do (client c) (gitea.GetContents (Owner repo) (Name repo) branch path)
    (server w1) = (s, reply) ->
  let author :=
    gitea.mkIdentity (config.CommitAuthor_Name commitAuthor)
      (config.CommitAuthor_Email commitAuthor) in
  let fileOptions := gitea.mkFileOptions message branch author author in
  let get := gitea.GetContents (Owner repo) (Name repo) branch path in
  let create :=
    gitea.CreateFile (Owner repo) (Name repo) path
      (gitea.mkCreateFileOptions fileOptions (base64_EncodeToString content)) in
  let w' := fst (CreateFile c ctx commitAuthor repo content path message w) in
  let err := snd (CreateFile c ctx commitAuthor repo content path message w) in
  match reply with
  | gitea.Fail resp msg =>
      if notFound resp
      then calls w' = calls w1 ++ [gitea.Called get; gitea.Called create]
           /\ server w' = fst (gitea.do (client c) create s)
           /\ err = gitea.Reply_err (snd (gitea.do (client c) create s))
      else calls w' = calls w1 ++ [gitea.Called get]
           /\ server w' = s
           /\ err = Some (ForeignError msg)
  | gitea.Ok currentFile _ =>
      let update :=
        gitea.UpdateFile (Owner repo) (Name repo) path
          (gitea.mkUpdateFileOptions fileOptions
             (gitea.Contents_SHA currentFile) (base64_EncodeToString content)) in
      calls w' = calls w1 ++ [gitea.Called get; gitea.Called update]
      /\ server w' = fst (gitea.do (client c) update s)
      /\ err = gitea.Reply_err (snd (gitea.do (client c) update s))
  end.
Proof.
  intros Hbranch Hget. cbv zeta.
  rewrite (CreateFile_run c ctx commitAuthor repo content path message
             w w1 branch s reply Hbranch Hget).
  destruct reply as [currentFile resp | resp msg]; [repeat split|].
  destruct (notFound resp); repeat split.
Qed.

(** C5, as the code has it.  With no branch override and a failing
    default-branch lookup, [CreateFile] does not fail on that
    account and logs the warning that announces master, but the
    branch it goes on with is the empty string: the contents are
    fetched at the empty ref. *)
Theorem CreateFile_fallback_branch (c : giteaClient Client) (ctx : Context)
  (commitAuthor : config.CommitAuthor) (repo : Repo)
  (content path message : string) (w : World Server)
  (s : Server) (resp : option gitea.Response) (msg : string) :
  Branch repo = "" ->
  gitea.do (client c) (gitea.GetRepo (Owner repo) (Name repo)) (server w)
  = (s, gitea.Fail resp msg) ->
  exists w1,
    CreateFile_branch c ctx repo path w = (w1, "")
    /\ server w1 = s
    /\ In (log.mkEntry log.WarnLevel
             [("fileName", log.Str path);
              ("projectID", log.Str (Repo_String repo));
              ("requestedBranch", log.Str "");
              ("error", log.Err (ForeignError msg))]
             "error checking for default branch, using master")
          (logs w1)
    /\ exists rest,
        calls (fst (CreateFile c ctx commitAuthor repo content path message w)) =
        calls w ++
        [gitea.Called (gitea.GetRepo (Owner repo) (Name repo));
         gitea.Called (gitea.GetContents (Owner repo) (Name repo) "" path)]
        ++ rest.
Proof.
  intros Hb Hrepo.
  assert (Hbranch : exists w1,
             CreateFile_branch c ctx repo path w = (w1, "")
             /\ server w1 = s
             /\ calls w1 = calls w ++ [gitea.Called (gitea.GetRepo (Owner repo) (Name repo))]
             /\ In (log.mkEntry log.WarnLevel
                      [("fileName", log.Str path);
                       ("projectID", log.Str (Repo_String repo));
                       ("requestedBranch", log.Str "");
                       ("error", log.Err (ForeignError msg))]
                      "error checking for default branch, using master")
                   (logs w1)).
  { unfold CreateFile_branch, getDefaultBranch. rewrite Hb. plumbing.
    rewrite Hrepo. simpl. eexists. split; [reflexivity|]. simpl.
    repeat split. apply in_or_app. right. left. reflexivity. }
  destruct Hbranch as (w1 & Hrun & Hs & Hcalls & Hlog).
  exists w1. repeat split; try assumption.
  destruct (gitea.do (client c) (gitea.GetContents (Owner repo) (Name repo) "" path)
              (server w1)) as [s2 reply] eqn:Hget.
  rewrite (CreateFile_run c ctx commitAuthor repo content path message
             w w1 "" s2 reply Hrun Hget).
  rewrite Hcalls.
  destruct reply as [currentFile resp' | resp' msg'];
    [|destruct (notFound resp')]; simpl;
    rewrite <- app_assoc; simpl; eexists; reflexivity.
Qed.

(** ** CreateRelease *)

Lemma find_app_split {A : Type} (f : A -> bool) (l1 l2 : list A) :
  find f (l1 ++ l2) =
  match find f l1 with
  | Some x => Some x
  | None => find f l2
  end.
Proof.
  induction l1 as [|a l1 IH]; simpl; [reflexivity|].
  destruct (f a); [reflexivity | exact IH].
Qed.

Lemma filter_nil_find {A : Type} (f : A -> bool) (l : list A) :
  filter f l = [] -> find f l = None.
Proof.
  induction l as [|a l IH]; simpl; [reflexivity|].
  destruct (f a); [discriminate | exact IH].
Qed.

(** An element whose key is not among the keys of the others sits
    at one place only. *)
Lemma unique_place {A : Type} (key : A -> Z) (b a b' a' : list A) (x y : A) :
  ~ In (key x) (map key (b ++ a)) ->
  key y = key x ->
  b ++ x :: a = b' ++ y :: a' ->
  b' = b /\ y = x /\ a' = a.
Proof.
  revert b'; induction b as [|h b IH]; intros b' Hfresh Hkey Heq.
  - destruct b' as [|h' b']; simpl in *.
    + injection Heq as <- <-. repeat split.
    + injection Heq as <- ->. exfalso. apply Hfresh.
      rewrite map_app. apply in_or_app. right. left. exact Hkey.
  - destruct b' as [|h' b']; simpl in *.
    + injection Heq as <- _. exfalso. apply Hfresh. left. exact Hkey.
    + injection Heq as <- Heq.
      destruct (IH b') as (-> & -> & ->); try assumption.
      * intros Hin. apply Hfresh. right. exact Hin.
      * repeat split.
Qed.

Section Store.

Variable releasesOf : Server -> string -> string -> list gitea.Release.
Hypothesis store : ReleaseStore releasesOf.

Variables (c : giteaClient Client) (ctx : Context).

Let owner := config.Owner (config.Gitea (config.Project_Release (Config ctx))).
Let repoName := config.Name (config.Gitea (config.Project_Release (Config ctx))).
Let tag := CurrentTag (Git ctx).
Let held := client.held releasesOf ctx.
Let listing :=
  gitea.Called (gitea.ListReleases owner repoName (gitea.mkListReleasesOptions 0 0)).

(** What a successful [CreateRelease] did: an update of the first
    release that carries the tag, or else a create. *)
Lemma CreateRelease_success (body id : string) (w w' : World Server) :
  CreateRelease c ctx body w = (w', Success id) ->
  match find (hasTag tag) (held w) with
  | Some found =>
      exists opt rel before old after,
        id = strconv.FormatInt (gitea.ID found)
        /\ gitea.TagName found = tag
        /\ gitea.ID rel = gitea.ID found
        /\ gitea.Edit_TagName opt = tag
        /\ calls w' =
           calls w ++
           [listing;
            gitea.Called (gitea.EditRelease owner repoName (gitea.ID found) opt)]
        /\ held w = before ++ old :: after
        /\ gitea.ID old = gitea.ID found
        /\ held w' = before ++ rel :: after
        /\ (tag = gitea.TagName old -> gitea.TagName rel = tag)
  | None =>
      exists opt rel before after,
        id = strconv.FormatInt (gitea.ID rel)
        /\ gitea.TagName rel = tag
        /\ gitea.Create_TagName opt = tag
        /\ ~ In (gitea.ID rel) (map gitea.ID (held w))
        /\ calls w' =
           calls w ++
           [listing; gitea.Called (gitea.CreateRelease owner repoName opt)]
        /\ held w = before ++ after
        /\ held w' = before ++ rel :: after
  end.
Proof.
  unfold CreateRelease.
  destruct (tmpl_Apply ctx _) as [title|err]; [|discriminate].
  unfold bind at 1. unfold getExistingRelease, bind, invoke at 1.
  fold owner repoName tag.
  destruct (gitea.do (client c) (gitea.ListReleases owner repoName _) (server w))
    as [s1 [releases resp|resp msg]] eqn:Hlist; [|discriminate].
  pose proof Hlist as Hl. apply (list_complete store) in Hl.
  destruct Hl as [-> Hsame].
  unfold ret at 1. fold (hasTag tag). unfold held, client.held at 1.
  fold owner repoName.
  destruct (find (hasTag tag) (releasesOf (server w) owner repoName))
    as [found|] eqn:Hfind.
  - unfold updateRelease, bind, invoke, emit, ret. fold owner repoName tag.
    cbn [server calls logs].
    match goal with
    | |- context [gitea.do (client c) (gitea.EditRelease owner repoName ?i ?o) s1] =>
        destruct (gitea.do (client c) (gitea.EditRelease owner repoName i o) s1)
          as [s2 [rel resp2|resp2 msg2]] eqn:Hedit; set (opt := o) in *
    end; [|discriminate].
    intros H; injection H as <- <-.
    pose proof Hedit as He. apply (edit_in_place store) in He.
    destruct He as (Hid & before & old & after & Hheld & Hold & Hheld' & Htag).
    exists opt, rel, before, old, after. unfold held, client.held; cbn [server calls].
    fold owner repoName.
    rewrite Hsame in Hheld. rewrite Hid, <- app_assoc.
    apply find_some in Hfind. destruct Hfind as [_ Hfound].
    apply String.eqb_eq in Hfound.
    repeat split; try assumption; try reflexivity.
    intros E. transitivity (gitea.TagName old); [|symmetry; exact E].
    apply Htag. exact E.
  - unfold createRelease, bind, invoke, emit, ret. fold owner repoName tag.
    cbn [server calls logs].
    match goal with
    | |- context [gitea.do (client c) (gitea.CreateRelease owner repoName ?o) s1] =>
        destruct (gitea.do (client c) (gitea.CreateRelease owner repoName o) s1)
          as [s2 [rel resp2|resp2 msg2]] eqn:Hcreate; set (opt := o) in *
    end; [|discriminate].
    intros H; injection H as <- <-.
    pose proof Hcreate as Hc. apply (create_inserts store) in Hc.
    destruct Hc as (Htag & Hfresh & before & after & Hheld & Hheld').
    exists opt, rel, before, after. unfold held, client.held; cbn [server calls].
    fold owner repoName.
    rewrite Hsame in Hheld, Hfresh. rewrite <- app_assoc.
    repeat split; try assumption; reflexivity.
Qed.

Lemma find_after_edit {A : Type} (f : A -> bool) (key : A -> Z)
  (before after : list A) (old rel found : A) :
  find f (before ++ old :: after) = Some found ->
  key old = key found ->
  key rel = key found ->
  (f old = true -> f rel = true) ->
  exists found',
    find f (before ++ rel :: after) = Some found' /\ key found' = key found.
Proof.
  intros Hfind Hold Hrel Hkeep.
  rewrite find_app_split in Hfind.
  rewrite (find_app_split f before (rel :: after)).
  destruct (find f before) as [x|].
  - exists x. split; [reflexivity|]. congruence.
  - simpl in *. destruct (f rel) eqn:Frel.
    + exists rel. now split.
    + destruct (f old) eqn:Fold.
      * discriminate (Hkeep eq_refl).
      * exists found. now split.
Qed.

Lemma find_after_insert {A : Type} (f : A -> bool)
  (before after : list A) (rel : A) :
  find f (before ++ after) = None ->
  f rel = true ->
  find f (before ++ rel :: after) = Some rel.
Proof.
  intros Hnone Hrel. rewrite find_app_split in Hnone.
  rewrite find_app_split.
  destruct (find f before); [discriminate|]. simpl. now rewrite Hrel.
Qed.

(** After a successful call, the scan of the next call finds a
    release with the identifier the call returned. *)
Lemma CreateRelease_then_found (body id : string) (w w' : World Server) :
  CreateRelease c ctx body w = (w', Success id) ->
  exists found,
    find (hasTag tag) (held w') = Some found
    /\ strconv.FormatInt (gitea.ID found) = id.
Proof.
  intros Hrun. apply CreateRelease_success in Hrun.
  destruct (find (hasTag tag) (held w)) as [found|] eqn:Hfind.
  - destruct Hrun as (opt & rel & before & old & after & -> & Hft & Hid & _ & _
                      & Hheld & Hold & Hheld' & Htag).
    rewrite Hheld in Hfind. rewrite Hheld'.
    destruct (find_after_edit (hasTag tag) gitea.ID before after old rel found)
      as (found' & Hfind' & Hkey); try assumption.
    + unfold hasTag. rewrite !String.eqb_eq. intros E. apply Htag. now symmetry.
    + exists found'. split; [assumption|]. now rewrite Hkey.
  - destruct Hrun as (opt & rel & before & after & -> & Htag & _ & _ & _
                      & Hheld & Hheld').
    exists rel. split; [|reflexivity].
    rewrite Hheld in Hfind. rewrite Hheld'.
    apply find_after_insert; [assumption|].
    unfold hasTag. now apply String.eqb_eq.
Qed.

(** C1.  Two successful calls of [CreateRelease] in succession
    for the same tag.  The first updates the first listed release
    whose tag equals the requested one and returns its
    identifier, or creates a release when the listing has none.
    The second lists, then updates the identifier the first
    returned and returns it again; it creates nothing, so the
    instance holds as many releases as before it; and when no
    release carried the tag before the first call, exactly one
    carries it after the second, under the returned identifier. *)
Theorem CreateRelease_idempotent (body1 body2 id1 id2 : string)
  (w0 w1 w2 : World Server) :
  CreateRelease c ctx body1 w0 = (w1, Success id1) ->
  CreateRelease c ctx body2 w1 = (w2, Success id2) ->
  match find (hasTag tag) (held w0) with
  | Some found =>
      id1 = strconv.FormatInt (gitea.ID found)
      /\ exists opt,
          calls w1 =
          calls w0 ++
          [listing;
           gitea.Called (gitea.EditRelease owner repoName (gitea.ID found) opt)]
  | None =>
      exists opt,
        gitea.Create_TagName opt = tag
        /\ calls w1 =
           calls w0 ++
           [listing; gitea.Called (gitea.CreateRelease owner repoName opt)]
  end
  /\ (exists id opt,
         strconv.FormatInt id = id1
         /\ calls w2 =
            calls w1 ++
            [listing; gitea.Called (gitea.EditRelease owner repoName id opt)])
  /\ id2 = id1
  /\ length (held w2) = length (held w1)
  /\ (filter (hasTag tag) (held w0) = [] ->
      exists rel,
        filter (hasTag tag) (held w2) = [rel]
        /\ strconv.FormatInt (gitea.ID rel) = id1).
Proof.
  intros Hfirst Hsecond.
  destruct (CreateRelease_then_found _ _ _ _ Hfirst) as (found1 & Hfind1 & Hid1).
  pose proof (CreateRelease_success _ _ _ _ Hfirst) as H1.
  pose proof (CreateRelease_success _ _ _ _ Hsecond) as H2.
  rewrite Hfind1 in H2.
  destruct H2 as (opt2 & rel2 & b2 & old2 & a2 & Hid2 & Hft2 & Hrel2 & Hopt2
                  & Hcalls2 & Hheld1 & Hold2 & Hheld2 & Htag2).
  split; [|split; [|split; [|split]]].
  - destruct (find (hasTag tag) (held w0)) as [found|].
    + destruct H1 as (opt & _ & _ & _ & _ & -> & _ & _ & _ & -> & _).
      split; [reflexivity|]. now exists opt.
    + destruct H1 as (opt & _ & _ & _ & _ & _ & Hopt & _ & -> & _).
      now exists opt.
  - exists (gitea.ID found1), opt2. now split.
  - now rewrite Hid2.
  - rewrite Hheld1, Hheld2, !length_app. reflexivity.
  - intros Hnone.
    rewrite (filter_nil_find _ _ Hnone) in H1.
    destruct H1 as (opt & rel & before & after & -> & Htag & _ & Hfresh & _
                    & Hheld0 & Hheld1').
    assert (Hfound1 : found1 = rel).
    { rewrite Hheld1' in Hfind1. rewrite Hheld0 in Hnone.
      rewrite (find_after_insert (hasTag tag) before after rel) in Hfind1.
      - now injection Hfind1 as <-.
      - now apply filter_nil_find.
      - unfold hasTag. now apply String.eqb_eq. }
    subst found1.
    rewrite Hheld0 in Hfresh, Hnone. rewrite Hheld1' in Hheld1.
    destruct (unique_place gitea.ID before after b2 a2 rel old2 Hfresh Hold2 Hheld1)
      as (-> & -> & ->).
    exists rel2. split; [|now rewrite Hrel2].
    rewrite Hheld2. rewrite filter_app in *. simpl.
    apply app_eq_nil in Hnone. destruct Hnone as [-> ->].
    assert (Hkeep : hasTag tag rel2 = true).
    { unfold hasTag. apply String.eqb_eq. apply Htag2. now symmetry. }
    rewrite Hkeep. reflexivity.
Qed.

End Store.

End Gitea.

End client_facts.

(** * The statements at work on the instance held in memory *)

Module examples.
Import context client memory.

Lemma freshID_above (l : list gitea.Release) (r : gitea.Release) :
  In r l -> (gitea.ID r < freshID l)%Z.
Proof.
  induction l as [|a l IH]; simpl; [contradiction|].
  intros [->|Hin]; [lia|]. specialize (IH Hin). lia.
Qed.

Lemma freshID_fresh (l : list gitea.Release) :
  ~ In (freshID l) (map gitea.ID l).
Proof.
  intros Hin. apply in_map_iff in Hin. destruct Hin as (r & Hid & Hin).
  apply freshID_above in Hin. lia.
Qed.

Lemma replaceFirst_place (id : Z) (rel old : gitea.Release)
  (l : list gitea.Release) :
  find (hasID id) l = Some old ->
  exists before after,
    l = before ++ old :: after
    /\ gitea.ID old = id
    /\ replaceFirst id rel l = before ++ rel :: after.
Proof.
  induction l as [|a l IH]; simpl; [discriminate|].
  destruct (hasID id a) eqn:Ha.
  - intros H; injection H as ->. exists [], l. repeat split.
    unfold hasID in Ha. now apply Z.eqb_eq.
  - intros H. destruct (IH H) as (before & after & -> & Hid & ->).
    exists (a :: before), after. repeat split. exact Hid.
Qed.

(** The instance in memory is a release store in the sense the
    client relies on. *)
Lemma memory_store : ReleaseStore (fun s _ _ => releases s).
Proof.
  constructor; simpl.
  - intros _ owner repo opt s s' rels resp H. injection H as <- <- _.
    now split.
  - intros _ owner repo opt s s' rel resp H. injection H as <- <- _. simpl.
    split; [reflexivity|]. split; [apply freshID_fresh|].
    exists [], (releases s). now split.
  - intros _ owner repo id opt s s' rel resp H.
    destruct (find (hasID id) (releases s)) as [old|] eqn:Hfind; [|discriminate].
    injection H as <- <- _. simpl. split; [reflexivity|].
    destruct (replaceFirst_place id (edited id opt old) old (releases s) Hfind)
      as (before & after & Hl & Hid & Hr).
    exists before, old, after. repeat split; try assumption.
    unfold edited; simpl. intros ->.
    destruct (gitea.TagName old =? ""); reflexivity.
Qed.

(** [A] fails and is memorized, [B] fails and aborts, [C] never runs. *)
Lemma Run_stage_error_witness :
  publish.Run (Memo := list error)
    (publish.mkPipe [stages.A; stages.B; stages.C]) stages.s0
  = (stages.s0, [("A", Some stages.aDown); ("B", Some stages.bDown)],
     Some (Errorf "B: failed to publish artifacts: " stages.bDown))
  /\ map fst [("A", Some stages.aDown); ("B", Some stages.bDown)] = ["A"; "B"].
Proof.
  apply (publish_facts.Run_stage_error (Memo := list error)
           [stages.A] [stages.C] stages.B stages.s0 stages.s0
           (publish.mkLoop stages.s0 [Errorf "A: " stages.aDown] [("A", Some stages.aDown)])
           stages.bDown).
  - reflexivity.
  - reflexivity.
  - left. reflexivity.
Defined.

(** [A] fails and is memorized, [C] succeeds: both ran, and the run
    reports the memo. *)
Lemma Run_end_of_list_witness :
  map fst [("A", Some stages.aDown); ("C", None)] = ["A"; "C"]
  /\ [Errorf "A: " stages.aDown] = publish.memorized [("A", Some stages.aDown); ("C", None)]
  /\ exists r,
      publish.Run (publish.mkPipe [stages.A; stages.C]) stages.s0
      = (stages.s0, [("A", Some stages.aDown); ("C", None)], r)
      /\ (r = None <-> [Errorf "A: " stages.aDown] = [])
      /\ ([Errorf "A: " stages.aDown] <> [] -> r = Some (JoinedError [Errorf "A: " stages.aDown])).
Proof.
  apply (publish_facts.Run_end_of_list
           (publish.mkPipe [stages.A; stages.C]) stages.s0
           (publish.mkLoop stages.s0 [Errorf "A: " stages.aDown]
              [("A", Some stages.aDown); ("C", None)])).
  reflexivity.
Defined.

(** Two calls for the tag v1.0.0 on an instance without releases:
    one release carries the tag afterwards, under the identifier both
    calls returned. *)
Lemma CreateRelease_idempotent_witness :
  exists rel,
    filter (hasTag "v1.0.0")
      (releases
         (server
            (fst (CreateRelease handle ctx0 "notes again"
                    (fst (CreateRelease handle ctx0 "notes" (world empty)))))))
    = [rel]
    /\ strconv.FormatInt (gitea.ID rel) = "1".
Proof.
  apply (client_facts.CreateRelease_idempotent
           (fun s _ _ => releases s) memory_store handle ctx0
           "notes" "notes again" "1" "1" (world empty)
           (fst (CreateRelease handle ctx0 "notes" (world empty)))
           (fst (CreateRelease handle ctx0 "notes again"
                   (fst (CreateRelease handle ctx0 "notes" (world empty)))))).
  - reflexivity.
  - reflexivity.
  - reflexivity.
Defined.

(** The file is not there: one fetch, then one create. *)
Lemma CreateFile_three_way_witness :
  calls (fst (CreateFile handle ctx0 author0 repoMain "class Tool"
                "Formula/tool.rb" "update" (world empty)))
  = [gitea.Called (gitea.GetContents "acme" "tap" "main" "Formula/tool.rb");
     gitea.Called
       (gitea.CreateFile "acme" "tap" "Formula/tool.rb"
          (gitea.mkCreateFileOptions
             (gitea.mkFileOptions "update" "main"
                (gitea.mkIdentity "bot" "bot@example.com")
                (gitea.mkIdentity "bot" "bot@example.com"))
             "class Tool"))].
Proof.
  exact (proj1 (client_facts.CreateFile_three_way handle ctx0 author0 repoMain
                  "class Tool" "Formula/tool.rb" "update" (world empty) (world empty)
                  "main" empty (gitea.Fail notFound "file not found")
                  eq_refl eq_refl)).
Defined.

(** The lookup of the default branch fails: the warning names
    master, the fetch goes to the empty ref. *)
Lemma CreateFile_fallback_branch_witness :
  exists w1,
    CreateFile_branch handle ctx0 repo0 "Formula/tool.rb" (world empty) = (w1, "")
    /\ server w1 = empty
    /\ In (log.mkEntry log.WarnLevel
             [("fileName", log.Str "Formula/tool.rb");
              ("projectID", log.Str "acme/tap");
              ("requestedBranch", log.Str "");
              ("error", log.Err (ForeignError "connection refused"))]
             "error checking for default branch, using master")
          (logs w1)
    /\ exists rest,
        calls (fst (CreateFile handle ctx0 author0 repo0 "class Tool"
                      "Formula/tool.rb" "update" (world empty)))
        = [] ++
          [gitea.Called (gitea.GetRepo "acme" "tap");
           gitea.Called (gitea.GetContents "acme" "tap" "" "Formula/tool.rb")]
          ++ rest.
Proof.
  exact (client_facts.CreateFile_fallback_branch handle ctx0 author0 repo0
           "class Tool" "Formula/tool.rb" "update" (world empty)
           empty None "connection refused"
           eq_refl eq_refl).
Defined.

(** C6, the sentence as the spec has it, fails: a release identifier
    that is no number makes [Upload] fail with the error of
    [strconv.ParseInt], which is no [RetriableError]. *)
Lemma Upload_unwrapped_error :
  exists e,
    snd (Upload handle ctx0 "abc" tarball tarballFile (world empty)) = Some e
    /\ e = NumError "ParseInt" "abc" ErrSyntax
    /\ forall cause, e <> RetriableError cause.
Proof.
  exists (NumError "ParseInt" "abc" ErrSyntax).
  split; [reflexivity|]. split; [reflexivity|]. discriminate.
Qed.

(** The release is not there: the attachment call fails with status
    404 and its error comes back wrapped. *)
Lemma Upload_failure_witness :
  (exists id resp msg,
      strconv.ParseInt "7" = Success id
      /\ gitea.do (client handle)
           (gitea.CreateReleaseAttachment "acme" "tool" id tarballFile "tool.tar.gz")
           empty
         = (server (fst (Upload handle ctx0 "7" tarball tarballFile (world empty))),
            gitea.Fail resp msg)
      /\ RetriableError (ForeignError "release not found")
         = RetriableError (ForeignError msg)
      /\ calls (fst (Upload handle ctx0 "7" tarball tarballFile (world empty)))
         = [] ++
           [gitea.Called
              (gitea.CreateReleaseAttachment "acme" "tool" id tarballFile
                 "tool.tar.gz")]
      /\ logs (fst (Upload handle ctx0 "7" tarball tarballFile (world empty))) = [])
  \/ (strconv.ParseInt "7"
      = Failure (RetriableError (ForeignError "release not found"))
      /\ (forall cause,
             RetriableError (ForeignError "release not found")
             <> RetriableError cause)
      /\ fst (Upload handle ctx0 "7" tarball tarballFile (world empty))
         = world empty).
Proof.
  exact (client_facts.Upload_failure handle ctx0 "7" tarball tarballFile
           (world empty)
           (fst (Upload handle ctx0 "7" tarball tarballFile (world empty)))
           (RetriableError (ForeignError "release not found"))
           eq_refl).
Defined.

(** Two commits, the first with a message of three lines and an
    author, the second without author. *)
Lemma Changelog_mirrors_commits_witness :
  exists result resp,
    gitea.do (client handle) (gitea.CompareCommits "acme" "tap" "v0.9.0" "v1.0.0")
      withCommits
    = (withCommits, gitea.Ok result resp)
    /\ calls (fst (Changelog handle ctx0 repo0 "v0.9.0" "v1.0.0" (world withCommits)))
       = [] ++ [gitea.Called (gitea.CompareCommits "acme" "tap" "v0.9.0" "v1.0.0")]
    /\ mirrors (gitea.Commits result)
         [mkChangelogItem "c0ffee" "fix: retry upload" "Ada L" "ada@example.com" "ada";
          mkChangelogItem "decaf0" "docs: typo" "" "" ""].
Proof.
  exact (client_facts.Changelog_mirrors_commits handle ctx0 repo0
           "v0.9.0" "v1.0.0" (world withCommits)
           (fst (Changelog handle ctx0 repo0 "v0.9.0" "v1.0.0" (world withCommits)))
           [mkChangelogItem "c0ffee" "fix: retry upload" "Ada L" "ada@example.com" "ada";
            mkChangelogItem "decaf0" "docs: typo" "" "" ""]
           eq_refl).
Defined.

(** With the token of the tests the client is built without token. *)
Lemma newGitea_token_witness :
  exists options,
    calls (fst (newGitea ctx0 "giteatoken" (world empty)))
    = [] ++ [gitea.Constructed "https://gitea.example.com" options]
    /\ ("giteatoken" = "giteatoken" -> forall t, ~ In (gitea.SetToken t) options)
    /\ ("giteatoken" <> "giteatoken" ->
        In (gitea.SetToken "giteatoken") options
        /\ forall t, In (gitea.SetToken t) options -> t = "giteatoken").
Proof.
  exact (client_facts.newGitea_token ctx0 "giteatoken"
           "https://gitea.example.com" (world empty)
           eq_refl).
Defined.

End examples.


(** * Further properties of the publishing pipe *)

Module publish_more.
Import context publish.

Section Runner.

Context {World : Type} {mw : Middleware World}.
Context {Memo : Type} {mo : MemoOps Memo}.

Lemma iteration_Return (p : Publisher World) (l : @Loop World Memo)
  (s' : State World) (invoked : list (string * option error)) (err : error) :
  iteration p l = Return s' invoked err ->
  exists cause,
    wrapped p (st l) = (s', Some cause)
    /\ continuable p && negb (FailFast (ctx s')) = false
    /\ invoked = ran l ++ [(String p, Some cause)]
    /\ err = Errorf (String p ++ ": failed to publish artifacts: ") cause.
Proof.
  unfold iteration. destruct (wrapped p (st l)) as [s1 [cause|]]; [|discriminate].
  destruct (continuable p && negb (FailFast (ctx s1))) eqn:Hc; [discriminate|].
  intros E; injection E as <- <- <-. exists cause. repeat split. exact Hc.
Qed.

(** Where the loop returned from: the stage that made it return, the
    loop state the stages before it left, and the cause. *)
Lemma range_Return (ps : list (Publisher World)) (l : @Loop World Memo)
  (s' : State World) (invoked : list (string * option error)) (err : error) :
  range ps l = Return s' invoked err ->
  exists pre publisher post l1 cause,
    ps = pre ++ publisher :: post
    /\ range pre l = Next l1
    /\ wrapped publisher (st l1) = (s', Some cause)
    /\ continuable publisher && negb (FailFast (ctx s')) = false
    /\ invoked = ran l1 ++ [(String publisher, Some cause)]
    /\ err = Errorf (String publisher ++ ": failed to publish artifacts: ") cause.
Proof.
  revert l; induction ps as [|p ps IH]; intros l; simpl; [discriminate|].
  destruct (iteration p l) as [l'|s1 inv1 e1] eqn:Hit.
  - intros H. destruct (IH _ H) as (pre & q & post & l1 & cause & -> & Hpre & Hrest).
    exists (p :: pre), q, post, l1, cause. split; [reflexivity|].
    split; [|exact Hrest]. simpl. now rewrite Hit.
  - intros H; injection H as -> -> ->.
    destruct (iteration_Return _ _ _ _ _ Hit) as (cause & Hw & Hc & Hinv & He).
    exists [], p, ps, l, cause. repeat split; assumption.
Qed.

(** X1.  Whatever [Run] returns, the stages it invoked are an initial
    part of the pipeline, in the order of the pipeline and each once;
    when stages are left over, [Run] returned the fatal error of the
    stage it invoked last. *)
Theorem Run_invoked_prefix (p : Pipe World) (s : State World) :
  exists rest,
    map (@String World) (pipeline p) = map fst (snd (fst (Run p s))) ++ rest
    /\ (rest <> [] ->
        exists before name cause,
          snd (fst (Run p s)) = before ++ [(name, Some cause)]
          /\ snd (Run p s)
             = Some (Errorf (name ++ ": failed to publish artifacts: ") cause)).
Proof.
  unfold Run. destruct (range (pipeline p) (start s)) as [l|s' invoked err] eqn:Hr.
  - exists []. simpl. split.
    + rewrite (publish_facts.range_Next_ran _ _ _ Hr). simpl. now rewrite app_nil_r.
    + intros H. contradiction H. reflexivity.
  - destruct (range_Return _ _ _ _ _ Hr)
      as (pre & q & post & l1 & cause & Hp & Hpre & _ & _ & -> & ->).
    exists (map (@String World) post). simpl. split.
    + rewrite Hp, !map_app, (publish_facts.range_Next_ran _ _ _ Hpre). simpl.
      rewrite <- app_assoc. reflexivity.
    + intros _. exists (ran l1), (String q), cause. now split.
Qed.

(** X2.  Whatever the memo is made of, when the loop reaches the end
    of the stage list the memo is the empty memo after [Memorize] was
    called, in the order of the stages, with the failure of each stage
    that failed, prefixed with the name of the stage; [Run] returns
    what [Error] makes of that memo. *)
Theorem Run_memorizes_in_order (p : Pipe World) (s : State World)
  (l : @Loop World Memo) :
  range (pipeline p) (start s) = Next l ->
  memo l = fold_left Memorize (memorized (ran l)) Memo_zero
  /\ snd (Run p s) = Memo_Error (fold_left Memorize (memorized (ran l)) Memo_zero).
Proof.
  intros Hr.
  assert (Hinv : forall ps (l0 l1 : @Loop World Memo),
             memo l0 = fold_left Memorize (memorized (ran l0)) Memo_zero ->
             range ps l0 = Next l1 ->
             memo l1 = fold_left Memorize (memorized (ran l1)) Memo_zero).
  { induction ps as [|q ps IH]; intros l0 l1 H0; simpl.
    - intros E; injection E as <-. exact H0.
    - destruct (iteration q l0) as [l'|] eqn:Hit; [|discriminate].
      apply IH. revert Hit. unfold iteration.
      destruct (wrapped q (st l0)) as [s1 [cause|]].
      + destruct (continuable q && negb (FailFast (ctx s1))); [|discriminate].
        intros E; injection E as <-. simpl.
        rewrite publish_facts.memorized_app, fold_left_app, <- H0. reflexivity.
      + intros E; injection E as <-. simpl.
        rewrite publish_facts.memorized_app, fold_left_app, <- H0. reflexivity. }
  assert (Hm := Hinv (pipeline p) (start s) l eq_refl Hr).
  split; [exact Hm|]. unfold Run. rewrite Hr. simpl. now rewrite <- Hm.
Qed.

End Runner.

Section ListMemo.

Context {World : Type} {mw : Middleware World}.

Lemma range_Next_invocations (ps : list (Publisher World))
  (l l' : @Loop World (list error)) :
  range ps l = Next l' ->
  exists inv, ran l' = ran l ++ inv /\ Forall2 invocationOf inv ps.
Proof.
  revert l; induction ps as [|q ps IH]; intros l; simpl.
  - intros E; injection E as <-. exists []. split; [now rewrite app_nil_r | constructor].
  - destruct (iteration q l) as [l1|] eqn:Hit; [|discriminate].
    intros H. destruct (IH _ H) as (inv & Hran & Hall).
    revert Hit. unfold iteration. destruct (wrapped q (st l)) as [s1 [cause|]].
    + destruct (continuable q) eqn:Hq; simpl; [|discriminate].
      destruct (negb (FailFast (ctx s1))); [|discriminate].
      intros E; injection E as <-. simpl in Hran.
      exists ((String q, Some cause) :: inv). split.
      * rewrite Hran, <- app_assoc. reflexivity.
      * constructor; [|exact Hall]. split; [reflexivity|]. intros _. exact Hq.
    + intros E; injection E as <-. simpl in Hran.
      exists ((String q, None) :: inv). split.
      * rewrite Hran, <- app_assoc. reflexivity.
      * constructor; [|exact Hall]. split; [reflexivity|]. intros N. now contradiction N.
Qed.

Lemma memorized_nil (invoked : list (string * option error)) :
  memorized invoked = [] <-> Forall (fun i => snd i = None) invoked.
Proof.
  induction invoked as [|[name [err|]] invoked IH]; simpl.
  - split; [constructor | reflexivity].
  - split; [discriminate|]. intros H. inversion H. discriminate.
  - rewrite IH. split; [now constructor | intros H; now inversion H].
Qed.

(** X3.  An error returned by [Run] is of one of two kinds.  Either it
    is the fatal error of a stage of the pipeline: it carries the name
    of the stage and the error the stage returned, the stage was the
    last one invoked, and it was not continuable or the context was in
    fail-fast mode.  Or it joins the memorized failures, at least one:
    then every stage was invoked and every failure on record is that
    of a continuable stage. *)
Theorem Run_error_kinds (p : Pipe World) (s s' : State World)
  (invoked : list (string * option error)) (e : error) :
  Run p s = (s', invoked, Some e) ->
  (exists pre publisher post before cause,
      pipeline p = pre ++ publisher :: post
      /\ e = Errorf (String publisher ++ ": failed to publish artifacts: ") cause
      /\ invoked = before ++ [(String publisher, Some cause)]
      /\ map fst before = map (@String World) pre
      /\ (continuable publisher = false \/ FailFast (ctx s') = true))
  \/ (e = JoinedError (memorized invoked)
      /\ memorized invoked <> []
      /\ Forall2 invocationOf invoked (pipeline p)).
Proof.
  unfold Run. destruct (range (pipeline p) (start s)) as [l|s1 inv1 err] eqn:Hr.
  - intros H; injection H as <- <- Hm. right.
    assert (Hmemo : memo l = memorized (ran l))
      by (apply (publish_facts.range_memo (pipeline p) (start s) l); [reflexivity|exact Hr]).
    rewrite Hmemo in Hm.
    destruct (range_Next_invocations _ _ _ Hr) as (inv & Hran & Hall).
    simpl in Hran. subst inv. simpl in Hm.
    destruct (memorized (ran l)) as [|e0 m]; [discriminate|].
    injection Hm as <-. repeat split; [discriminate | exact Hall].
  - intros H; injection H as <- <- <-. left.
    destruct (range_Return _ _ _ _ _ Hr)
      as (pre & q & post & l1 & cause & Hp & Hpre & _ & Hc & -> & ->).
    exists pre, q, post, (ran l1), cause. repeat split; try assumption.
    + apply (publish_facts.range_Next_ran _ _ _ Hpre).
    + apply andb_false_iff in Hc. destruct Hc as [Hc|Hc]; [now left|right].
      now apply negb_false_iff.
Qed.

(** X4.  [Run] returns nil exactly when every stage it invoked
    returned nil; then it invoked every stage of the pipeline. *)
Theorem Run_nil_iff (p : Pipe World) (s s' : State World)
  (invoked : list (string * option error)) (r : option error) :
  Run p s = (s', invoked, r) ->
  (r = None <-> Forall (fun i => snd i = None) invoked)
  /\ (r = None -> map fst invoked = map (@String World) (pipeline p)).
Proof.
  unfold Run. destruct (range (pipeline p) (start s)) as [l|s1 inv1 err] eqn:Hr.
  - intros H; injection H as <- <- <-.
    assert (Hmemo : memo l = memorized (ran l))
      by (apply (publish_facts.range_memo (pipeline p) (start s) l); [reflexivity|exact Hr]).
    rewrite Hmemo.
    split.
    + rewrite <- memorized_nil. simpl.
      destruct (memorized (ran l)); split; easy.
    + intros _. apply (publish_facts.range_Next_ran _ _ _ Hr).
  - intros H; injection H as <- <- <-.
    destruct (range_Return _ _ _ _ _ Hr)
      as (pre & q & post & l1 & cause & _ & _ & _ & _ & -> & _).
    split; [|discriminate]. split; [discriminate|].
    intros H. apply Forall_app in H. destruct H as [_ H].
    inversion H as [|? ? Hhd]. discriminate.
Qed.

End ListMemo.

Section Modes.

Context {World : Type} {mw : Middleware World}.
Context {Memo : Type} {mo : MemoOps Memo}.

(** X17.  Fail-fast mode that no stage switches off: the memo is
    never written.  Either every stage was invoked and returned nil,
    and [Run] returns what the empty memo reports; or [Run] returns
    the fatal error of the first stage that failed, continuable or
    not, and every stage before it returned nil. *)
Theorem Run_fail_fast (p : Pipe World) (s : State World) :
  FailFast (ctx s) = true ->
  (forall q s1, In q (pipeline p) -> FailFast (ctx s1) = true ->
                FailFast (ctx (fst (wrapped q s1))) = true) ->
  (snd (fst (Run p s)) = map (fun q => (String q, None)) (pipeline p)
   /\ snd (Run p s) = Memo_Error Memo_zero)
  \/ (exists pre q post cause,
         pipeline p = pre ++ q :: post
         /\ snd (fst (Run p s))
            = map (fun q => (String q, None)) pre ++ [(String q, Some cause)]
         /\ snd (Run p s)
            = Some (Errorf (String q ++ ": failed to publish artifacts: ") cause)).
Proof.
  intros Hs Hkeep.
  assert (Hloop : forall ps (l : @Loop World Memo),
             (forall q, In q ps -> In q (pipeline p)) ->
             FailFast (ctx (st l)) = true ->
             (exists l', range ps l = Next l'
                         /\ memo l' = memo l
                         /\ ran l' = ran l ++ map (fun q => (String q, None)) ps)
             \/ (exists pre q post cause s',
                    ps = pre ++ q :: post
                    /\ range ps l
                       = Return s'
                           (ran l ++ map (fun q => (String q, None)) pre
                            ++ [(String q, Some cause)])
                           (Errorf (String q ++ ": failed to publish artifacts: ")
                              cause))).
  { induction ps as [|q ps IH]; intros l Hin Hl.
    - left. exists l. simpl. now rewrite app_nil_r.
    - simpl. unfold iteration.
      pose proof (Hkeep q (st l) (Hin q (or_introl eq_refl)) Hl) as Hq.
      destruct (wrapped q (st l)) as [s1 [cause|]]; simpl in Hq.
      + rewrite Hq, andb_false_r. right.
        exists [], q, ps, cause, s1. split; reflexivity.
      + destruct (IH (mkLoop s1 (memo l) (ran l ++ [(String q, None)])))
          as [(l' & Hr & Hm & Hran)|(pre & q' & post & cause & s' & Hps & Hr)].
        * intros x Hx. apply Hin. now right.
        * exact Hq.
        * left. exists l'. simpl in Hm, Hran. rewrite Hr, Hran, <- app_assoc.
          now repeat split.
        * right. exists (q :: pre), q', post, cause, s'. simpl in Hr.
          rewrite Hr, <- app_assoc. split; [now rewrite Hps | reflexivity]. }
  unfold Run.
  destruct (Hloop (pipeline p) (start s) (fun q H => H) Hs)
    as [(l' & Hr & Hm & Hran)|(pre & q & post & cause & s' & Hps & Hr)];
    rewrite Hr; simpl.
  - left. rewrite Hran, Hm. now split.
  - right. exists pre, q, post, cause. now repeat split.
Qed.

(** X18.  A pipeline of continuable stages, run outside fail-fast mode
    that no stage switches on, is never cut short: every stage is
    invoked, whatever the stages before it returned, and the error of
    [Run] is what the memo reports. *)
Theorem Run_all_continuable (p : Pipe World) (s : State World) :
  FailFast (ctx s) = false ->
  (forall q s1, In q (pipeline p) -> FailFast (ctx s1) = false ->
                FailFast (ctx (fst (wrapped q s1))) = false) ->
  (forall q, In q (pipeline p) -> continuable q = true) ->
  exists l,
    range (pipeline p) (start s) = Next l
    /\ map fst (snd (fst (Run p s))) = map (@String World) (pipeline p)
    /\ snd (Run p s) = Memo_Error (memo l).
Proof.
  intros Hs Hkeep Hcont.
  assert (Hloop : forall ps (l : @Loop World Memo),
             (forall q, In q ps -> In q (pipeline p)) ->
             FailFast (ctx (st l)) = false ->
             exists l', range ps l = Next l').
  { induction ps as [|q ps IH]; intros l Hin Hl.
    - exists l. reflexivity.
    - simpl. unfold iteration.
      pose proof (Hkeep q (st l) (Hin q (or_introl eq_refl)) Hl) as Hq.
      rewrite (Hcont q (Hin q (or_introl eq_refl))).
      destruct (wrapped q (st l)) as [s1 [cause|]]; simpl in Hq;
        [rewrite Hq; simpl|]; apply IH; try exact Hq;
        intros x Hx; apply Hin; now right. }
  destruct (Hloop (pipeline p) (start s) (fun q H => H) Hs) as (l & Hr).
  exists l. split; [exact Hr|]. unfold Run. rewrite Hr. simpl.
  split; [|reflexivity]. apply (publish_facts.range_Next_ran _ _ _ Hr).
Qed.

End Modes.

End publish_more.

(** * Decimal identifiers survive printing and parsing *)

Module strconv_facts.

Lemma of_uint_acc_grows (d : Decimal.uint) (acc : positive) :
  (acc <= Pos.of_uint_acc d acc)%positive.
Proof.
  revert acc; induction d; intros acc; cbn [Pos.of_uint_acc];
    try (eapply Pos.le_trans; [|apply IHd]; lia).
  apply Pos.le_refl.
Qed.

(** Computes the digit the loop reads next. *)
Ltac read_digit :=
  cbn [NilEmpty.string_of_uint strconv.parseDigits Pos.of_uint_acc Pos.of_uint];
  lazymatch goal with
  | |- context [strconv.digit ?c] =>
      let v := eval vm_compute in (strconv.digit c) in
      change (strconv.digit c) with v
  end;
  cbv iota beta zeta.

(** The digit loop on the digits of [d], started at a positive [acc],
    computes what the standard decoder computes, as long as the result
    fits 64 bits. *)
Lemma parseDigits_acc (d : Decimal.uint) (acc : positive) :
  (Z.pos (Pos.of_uint_acc d acc) <= strconv.maxUint64)%Z ->
  strconv.parseDigits (NilEmpty.string_of_uint d) (Z.pos acc)
  = inl (Z.pos (Pos.of_uint_acc d acc)).
Proof.
  revert acc; induction d; intros acc; cbn [Pos.of_uint_acc]; intros Hmax;
    [reflexivity|..]; read_digit;
    (match goal with
     | H : (Z.pos (Pos.of_uint_acc d ?a) <= _)%Z |- _ =>
         pose proof (of_uint_acc_grows d a) as Hgrow;
         replace (Z.pos acc * 10 + _)%Z with (Z.pos a) by lia;
         destruct (Z.ltb_spec strconv.maxUint64 (Z.pos a)) as [Hlt|_];
         [lia | apply IHd; exact H]
     end).
Qed.

Lemma parseDigits_of_uint (d : Decimal.uint) :
  (Z.of_N (Pos.of_uint d) <= strconv.maxUint64)%Z ->
  strconv.parseDigits (NilEmpty.string_of_uint d) 0 = inl (Z.of_N (Pos.of_uint d)).
Proof.
  induction d; cbn [Pos.of_uint]; intros Hmax; [reflexivity|..]; read_digit;
    [exact (IHd Hmax)|..];
    (match goal with
     | H : (Z.of_N (N.pos (Pos.of_uint_acc d ?a)) <= _)%Z |- _ =>
         change (0 * 10 + _)%Z with (Z.pos a);
         destruct (Z.ltb_spec strconv.maxUint64 (Z.pos a)) as [Hlt|_];
         [pose proof (of_uint_acc_grows d a); simpl Z.of_N in H; lia
         | exact (parseDigits_acc d a H)]
     end).
Qed.

(** The digits of a positive number start with a digit: there is
    something to parse and it is no sign. *)
Lemma to_uint_head (p : positive) :
  exists c rest,
    NilZero.string_of_uint (Pos.to_uint p) = String c rest
    /\ NilEmpty.string_of_uint (Pos.to_uint p) = String c rest
    /\ Ascii.eqb c "-" = false
    /\ Ascii.eqb c "+" = false.
Proof.
  pose proof (DecimalPos.Unsigned.to_uint_nonnil p) as Hnil.
  destruct (Pos.to_uint p); [contradiction|..]; simpl;
    do 2 eexists; repeat split.
Qed.

Lemma parseDigits_to_uint (p : positive) :
  (Z.pos p <= strconv.maxUint64)%Z ->
  strconv.parseDigits (NilEmpty.string_of_uint (Pos.to_uint p)) 0 = inl (Z.pos p).
Proof.
  intros Hmax. rewrite parseDigits_of_uint; rewrite DecimalPos.Unsigned.of_to;
    [reflexivity | exact Hmax].
Qed.

(** Every [int64] printed by [FormatInt] is read back by [ParseInt]. *)
Lemma ParseInt_FormatInt (i : Z) :
  (- 2 ^ 63 <= i < 2 ^ 63)%Z ->
  strconv.ParseInt (strconv.FormatInt i) = Success i.
Proof.
  intros Hrange. unfold strconv.FormatInt.
  destruct i as [|p|p]; [reflexivity | |]; simpl Z.to_int; simpl NilZero.string_of_int;
    destruct (to_uint_head p) as (c & rest & Hs & Hs' & Hminus & Hplus).
  - rewrite Hs. unfold strconv.ParseInt. rewrite Hminus, Hplus. simpl orb.
    unfold strconv.ParseUint10. rewrite <- Hs', parseDigits_to_uint
      by (unfold strconv.maxUint64; lia).
    cbv zeta. simpl negb. simpl andb.
    match goal with
    | |- context [(?a <=? ?b)%Z] => destruct (Z.leb_spec a b) as [Hle|_]
    end; [|reflexivity].
    change (Z.pow_pos 2 63) with (2 ^ 63)%Z in Hle. lia.
  - unfold strconv.ParseInt. rewrite Hs. simpl Ascii.eqb. simpl orb.
    unfold strconv.ParseUint10. cbv iota. rewrite <- Hs', parseDigits_to_uint
      by (unfold strconv.maxUint64; lia).
    cbv zeta. simpl negb. simpl andb.
    match goal with
    | |- context [(?a <? ?b)%Z] => destruct (Z.ltb_spec a b) as [Hlt|_]
    end; [|reflexivity].
    change (Z.pow_pos 2 63) with (2 ^ 63)%Z in Hlt. lia.
Qed.

End strconv_facts.

(** * Further properties of the Gitea client *)

Module client_more.
Import context client.

Section Gitea.

Context {Server Client : Type} {sdk : gitea.SDK Server Client}.
Context {co : Collaborators}.

(** ** The instance URL and the construction of the client *)

(** X5.  [getInstanceURL] never returns an empty URL: what it returns
    is the templated API URL, parsed, printed without its path.  It
    fails in three ways: the template error wrapped under the words
    templating Gitea API URL, the parse error as it is, or an invalid
    URL error that quotes the configured API string when the URL
    without path prints as the empty string. *)
Theorem getInstanceURL_outcome (ctx : Context) :
  let api := config.API (config.Project_GiteaURLs (Config ctx)) in
  match getInstanceURL ctx with
  | Success rawurl =>
      rawurl <> ""
      /\ exists apiURL u,
          tmpl_Apply ctx api = Success apiURL
          /\ url_Parse apiURL = Success u
          /\ rawurl = URL_String (url.withPath u "")
  | Failure err =>
      (exists cause,
          tmpl_Apply ctx api = Failure cause
          /\ err = Errorf "templating Gitea API URL: " cause)
      \/ (exists apiURL,
             tmpl_Apply ctx api = Success apiURL /\ url_Parse apiURL = Failure err)
      \/ (exists apiURL u,
             tmpl_Apply ctx api = Success apiURL
             /\ url_Parse apiURL = Success u
             /\ URL_String (url.withPath u "") = ""
             /\ err = ForeignError ("invalid URL: " ++ strconv_Quote api))
  end.
Proof.
  cbv zeta. unfold getInstanceURL.
  destruct (tmpl_Apply ctx _) as [apiURL|cause] eqn:Ht.
  - destruct (url_Parse apiURL) as [u|err] eqn:Hp.
    + destruct (String.eqb_spec (URL_String (url.withPath u "")) "") as [E|N].
      * right; right. exists apiURL, u. repeat split; assumption.
      * split; [exact N|]. exists apiURL, u. repeat split; assumption.
    + right; left. exists apiURL. now split.
  - left. exists cause. now split.
Qed.

(** X6.  [newGitea] writes no log entry.  When the instance URL cannot
    be resolved it returns that error and constructs nothing.
    Otherwise it constructs one client, whose first option is the HTTP
    client with the configured TLS verification switch; a client it
    returns is the constructed one after the run context was applied
    to it, and an error it returns is that of the construction or of
    that application. *)
Theorem newGitea_outcome (ctx : Context) (token : string) (w : World Server) :
  let w' := fst (newGitea ctx token w) in
  let r := snd (newGitea ctx token w) in
  logs w' = logs w
  /\ hd_error (newGitea_options ctx token)
     = Some (gitea.SetHTTPClient
               (config.SkipTLSVerify (config.Project_GiteaURLs (Config ctx))))
  /\ match getInstanceURL ctx with
     | Failure err => w' = w /\ r = Failure err
     | Success instanceURL =>
         let built :=
           gitea.NewClient instanceURL (newGitea_options ctx token) (server w) in
         server w' = fst built
         /\ calls w' =
            calls w ++ [gitea.Constructed instanceURL (newGitea_options ctx token)]
         /\ match snd built with
            | inr msg => r = Failure (ForeignError msg)
            | inl cl =>
                match gitea.applyOption (gitea.SetContext ctx) cl with
                | inr msg => r = Failure (ForeignError msg)
                | inl cl' => r = Success (mkGiteaClient cl')
                end
            end
     end.
Proof.
  cbv zeta. unfold newGitea. split; [|split].
  - destruct (getInstanceURL ctx) as [u|err]; [|reflexivity].
    unfold bind, construct, ret.
    destruct (gitea.NewClient u _ (server w)) as [s [cl|msg]]; simpl; [|reflexivity].
    destruct (gitea.applyOption _ cl); reflexivity.
  - unfold newGitea_options. destruct (negb (token =? "giteatoken")); reflexivity.
  - destruct (getInstanceURL ctx) as [u|err]; [|now split].
    unfold bind, construct, ret.
    destruct (gitea.NewClient u _ (server w)) as [s [cl|msg]]; simpl;
      [|repeat split].
    destruct (gitea.applyOption _ cl); repeat split.
Qed.

(** ** getDefaultBranch *)

(** X19.  [getDefaultBranch] looks the repository up once.  With an
    answer it returns the default branch of the answer and logs
    nothing.  Without one it returns the empty string next to the
    error of the lookup, unwrapped, and logs one warning, which
    carries the project, the error, and the status code exactly when
    a response came with the failure. *)
Theorem getDefaultBranch_outcome (c : giteaClient Client) (ctx : Context)
  (repo : Repo) (w w' : World Server) (branch : string) (err : option error) :
  getDefaultBranch c ctx repo w = (w', (branch, err)) ->
  calls w' = calls w ++ [gitea.Called (gitea.GetRepo (Owner repo) (Name repo))]
  /\ match err with
     | None =>
         logs w' = logs w
         /\ exists p resp,
             gitea.do (client c) (gitea.GetRepo (Owner repo) (Name repo)) (server w)
             = (server w', gitea.Ok p resp)
             /\ branch = gitea.DefaultBranch p
     | Some e =>
         branch = ""
         /\ exists res msg,
             gitea.do (client c) (gitea.GetRepo (Owner repo) (Name repo)) (server w)
             = (server w', gitea.Fail res msg)
             /\ e = ForeignError msg
             /\ logs w' =
                logs w ++
                [log.mkEntry log.WarnLevel
                   ([("projectID", log.Str (Repo_String repo))]
                    ++ match res with
                       | Some res => [("statusCode", log.Int (gitea.StatusCode res))]
                       | None => []
                       end
                    ++ [("error", log.Err e)])
                   "error checking for default branch"]
     end.
Proof.
  unfold getDefaultBranch, bind, invoke, emit, ret.
  destruct (gitea.do (client c) _ (server w)) as [s [p resp|res msg]]; simpl;
    intros H; injection H as <- <- <-; simpl; (split; [reflexivity|]).
  - split; [reflexivity|]. exists p, resp. now split.
  - split; [reflexivity|]. exists res, msg. repeat split.
    destruct res; reflexivity.
Qed.

(** ** CreateFile *)

(** What settling the branch does to the world: the calls and log
    entries it adds, and the branch it ends on. *)
Lemma CreateFile_branch_run (c : giteaClient Client) (ctx : Context)
  (repo : Repo) (path : string) (w : World Server) :
  let lookup := gitea.GetRepo (Owner repo) (Name repo) in
  let answer := gitea.do (client c) lookup (server w) in
  CreateFile_branch c ctx repo path w =
  if negb (Branch repo =? "")
  then (w, Branch repo)
  else
    match snd answer with
    | gitea.Ok p _ =>
        (mkWorld (fst answer) (calls w ++ [gitea.Called lookup]) (logs w),
         gitea.DefaultBranch p)
    | gitea.Fail res msg =>
        (mkWorld (fst answer) (calls w ++ [gitea.Called lookup])
           (logs w ++
            [log.mkEntry log.WarnLevel
               ([("projectID", log.Str (Repo_String repo))]
                ++ match res with
                   | Some res => [("statusCode", log.Int (gitea.StatusCode res))]
                   | None => []
                   end
                ++ [("error", log.Err (ForeignError msg))])
               "error checking for default branch";
             log.mkEntry log.WarnLevel
               [("fileName", log.Str path);
                ("projectID", log.Str (Repo_String repo));
                ("requestedBranch", log.Str "");
                ("error", log.Err (ForeignError msg))]
               "error checking for default branch, using master"]),
         "")
    end.
Proof.
  cbv zeta. unfold CreateFile_branch.
  destruct (negb (Branch repo =? "")); [reflexivity|].
  unfold getDefaultBranch, bind, invoke, emit, ret.
  destruct (gitea.do (client c) _ (server w)) as [s [p resp|[res|] msg]]; simpl;
    try reflexivity; rewrite <- app_assoc; reflexivity.
Qed.

(** X7.  The branch [CreateFile] works on.  A branch set on the
    repository is taken as it is, with no call and no log entry.
    Without one, the repository is looked up once: the branch is the
    default branch of the answer, with no log entry, or, when the
    lookup fails, the empty string, with two warnings and nothing
    else in the log. *)
Theorem CreateFile_branch_resolution (c : giteaClient Client) (ctx : Context)
  (repo : Repo) (path : string) (w w1 : World Server) (branch : string) :
  CreateFile_branch c ctx repo path w = (w1, branch) ->
  (Branch repo <> "" -> branch = Branch repo /\ w1 = w)
  /\ (Branch repo = "" ->
      calls w1 = calls w ++ [gitea.Called (gitea.GetRepo (Owner repo) (Name repo))]
      /\ match snd (gitea.do (client c) (gitea.GetRepo (Owner repo) (Name repo))
                      (server w)) with
         | gitea.Ok p _ => branch = gitea.DefaultBranch p /\ logs w1 = logs w
         | gitea.Fail _ _ =>
             branch = ""
             /\ exists e1 e2,
                 logs w1 = logs w ++ [e1; e2]
                 /\ log.Entry_Level e1 = log.WarnLevel
                 /\ log.Entry_Level e2 = log.WarnLevel
         end).
Proof.
  rewrite CreateFile_branch_run. cbv zeta.
  destruct (String.eqb_spec (Branch repo) "") as [E|N]; simpl.
  - destruct (gitea.do (client c) (gitea.GetRepo (Owner repo) (Name repo))
                (server w)) as [s0 [p resp|res msg]]; simpl;
      intros H; injection H as <- <-;
      (split; [intros N; contradiction|]); intros _; simpl; repeat split.
    do 2 eexists. repeat split.
  - intros H; injection H as <- <-. split; [now split|]. intros E. contradiction.
Qed.

(** X8.  The calls of one [CreateFile], whatever the answers: at most
    one lookup of the repository, then one fetch of the contents, then
    at most one write.  The write is a create or an update of the same
    path, on the branch the fetch read from, with the given message,
    the commit author as author and as committer, and the content in
    base64. *)
Theorem CreateFile_calls_shape (c : giteaClient Client) (ctx : Context)
  (commitAuthor : config.CommitAuthor) (repo : Repo)
  (content path message : string) (w : World Server) :
  exists lookup ref write,
    calls (fst (CreateFile c ctx commitAuthor repo content path message w))
    = calls w ++ lookup
      ++ [gitea.Called (gitea.GetContents (Owner repo) (Name repo) ref path)]
      ++ write
    /\ (lookup = [] \/ lookup = [gitea.Called (gitea.GetRepo (Owner repo) (Name repo))])
    /\ let author :=
         gitea.mkIdentity (config.CommitAuthor_Name commitAuthor)
           (config.CommitAuthor_Email commitAuthor) in
       let fileOptions := gitea.mkFileOptions message ref author author in
       write = []
       \/ write =
          [gitea.Called
             (gitea.CreateFile (Owner repo) (Name repo) path
                (gitea.mkCreateFileOptions fileOptions
                   (base64_EncodeToString content)))]
       \/ exists sha,
           write =
           [gitea.Called
              (gitea.UpdateFile (Owner repo) (Name repo) path
                 (gitea.mkUpdateFileOptions fileOptions sha
                    (base64_EncodeToString content)))].
Proof.
  destruct (CreateFile_branch c ctx repo path w) as [w1 ref] eqn:Hb.
  destruct (gitea.do (client c) (gitea.GetContents (Owner repo) (Name repo) ref path)
              (server w1)) as [s reply] eqn:Hget.
  assert (Hlookup : exists lookup,
             calls w1 = calls w ++ lookup
             /\ (lookup = []
                 \/ lookup = [gitea.Called (gitea.GetRepo (Owner repo) (Name repo))])).
  { rewrite CreateFile_branch_run in Hb. cbv zeta in Hb.
    destruct (negb (Branch repo =? "")).
    - injection Hb as <- _. exists []. split; [now rewrite app_nil_r | now left].
    - revert Hb.
      destruct (gitea.do (client c) (gitea.GetRepo (Owner repo) (Name repo))
                  (server w)) as [s0 [p resp|res msg]]; simpl;
        intros Hb; injection Hb as <- _;
        eexists; (split; [reflexivity | now right]). }
  destruct Hlookup as (lookup & Hcalls & Hl).
  rewrite (client_facts.CreateFile_run c ctx commitAuthor repo content path message
             w w1 ref s reply Hb Hget).
  cbv zeta. exists lookup, ref.
  destruct reply as [currentFile resp | resp msg]; [|destruct (notFound resp)];
    simpl; rewrite Hcalls, <- !app_assoc; eexists; (split; [reflexivity|]);
    (split; [exact Hl|]).
  - right; right. eexists. reflexivity.
  - right; left. reflexivity.
  - left. reflexivity.
Qed.

(** X9.  When [CreateFile] returns nil, the contents were fetched and
    a write call came back without error: a create after a fetch that
    failed with status 404, or an update, carrying the fetched SHA,
    after a fetch that succeeded. *)
Theorem CreateFile_nil_means_written (c : giteaClient Client) (ctx : Context)
  (commitAuthor : config.CommitAuthor) (repo : Repo)
  (content path message : string) (w w' : World Server) :
  CreateFile c ctx commitAuthor repo content path message w = (w', None) ->
  exists w1 ref s write answer resp,
    CreateFile_branch c ctx repo path w = (w1, ref)
    /\ gitea.do (client c) write s = (server w', gitea.Ok answer resp)
    /\ calls w' =
       calls w1 ++
       [gitea.Called (gitea.GetContents (Owner repo) (Name repo) ref path);
        gitea.Called write]
    /\ match gitea.do (client c)
               (gitea.GetContents (Owner repo) (Name repo) ref path) (server w1) with
       | (s0, gitea.Ok currentFile _) =>
           s0 = s
           /\ exists opt,
               write = gitea.UpdateFile (Owner repo) (Name repo) path opt
               /\ gitea.Update_SHA opt = gitea.Contents_SHA currentFile
       | (s0, gitea.Fail res _) =>
           s0 = s
           /\ notFound res = true
           /\ exists opt, write = gitea.CreateFile (Owner repo) (Name repo) path opt
       end.
Proof.
  destruct (CreateFile_branch c ctx repo path w) as [w1 ref] eqn:Hb.
  destruct (gitea.do (client c) (gitea.GetContents (Owner repo) (Name repo) ref path)
              (server w1)) as [s reply] eqn:Hget.
  rewrite (client_facts.CreateFile_run c ctx commitAuthor repo content path message
             w w1 ref s reply Hb Hget).
  cbv zeta.
  destruct reply as [currentFile resp | resp msg]; [|destruct (notFound resp) eqn:Hnf];
    try discriminate;
    match goal with
    | |- context [gitea.do (client c) ?call s] =>
        destruct (gitea.do (client c) call s) as [s2 [answer resp2|resp2 msg2]] eqn:Hw;
        simpl; intros H; [injection H as <- | discriminate H];
        exists w1, ref, s, call, answer, resp2
    end; simpl;
    (split; [reflexivity|]); (split; [exact Hw|]); (split; [reflexivity|]);
    rewrite Hget; (split; [reflexivity|]).
  - eexists. split; reflexivity.
  - split; [exact Hnf|]. eexists. reflexivity.
Qed.

(** ** Releases *)

Lemma find_first {A : Type} (f : A -> bool) (l : list A) :
  match find f l with
  | Some x =>
      exists before after,
        l = before ++ x :: after /\ f x = true /\ Forall (fun y => f y = false) before
  | None => Forall (fun y => f y = false) l
  end.
Proof.
  induction l as [|a l IH]; simpl; [constructor|].
  destruct (f a) eqn:Ha.
  - exists [], l. repeat split; [exact Ha | constructor].
  - destruct (find f l) as [x|].
    + destruct IH as (before & after & -> & Hx & Hall).
      exists (a :: before), after. repeat split; [exact Hx | now constructor].
    + now constructor.
Qed.

(** X10.  [getExistingRelease] makes one listing call, with the zero
    paging options, and writes no log entry.  When the listing fails
    it returns no release and the error.  Otherwise it returns the
    first release of the listing whose tag is equal, as a string, to
    the tag asked for: no release listed before it has that tag; it
    returns no release exactly when no listed release has it. *)
Theorem getExistingRelease_first_match (c : giteaClient Client)
  (owner repoName tagName : string) (w : World Server) :
  let listing :=
    gitea.ListReleases owner repoName (gitea.mkListReleasesOptions 0 0) in
  let w' := fst (getExistingRelease c owner repoName tagName w) in
  let r := snd (getExistingRelease c owner repoName tagName w) in
  calls w' = calls w ++ [gitea.Called listing]
  /\ logs w' = logs w
  /\ server w' = fst (gitea.do (client c) listing (server w))
  /\ match snd (gitea.do (client c) listing (server w)) with
     | gitea.Fail _ msg => r = (None, Some (ForeignError msg))
     | gitea.Ok releases _ =>
         match fst r with
         | Some release =>
             snd r = None
             /\ gitea.TagName release = tagName
             /\ exists before after,
                 releases = before ++ release :: after
                 /\ Forall (fun x => gitea.TagName x <> tagName) before
         | None =>
             snd r = None
             /\ Forall (fun x => gitea.TagName x <> tagName) releases
         end
     end.
Proof.
  cbv zeta. unfold getExistingRelease, bind, invoke, ret.
  destruct (gitea.do (client c) _ (server w)) as [s [releases resp|resp msg]]; simpl;
    repeat split.
  pose proof (find_first (fun release => gitea.TagName release =? tagName) releases) as Hf.
  simpl in Hf.
  destruct (find (fun release => gitea.TagName release =? tagName) releases)
    as [release|].
  - destruct Hf as (before & after & -> & Hx & Hall). simpl. split; [reflexivity|].
    split; [now apply String.eqb_eq|]. exists before, after. split; [reflexivity|].
    eapply Forall_impl; [|exact Hall]. intros x Hx'. now apply String.eqb_neq.
  - simpl. split; [reflexivity|].
    eapply Forall_impl; [|exact Hf]. intros x Hx'. now apply String.eqb_neq.
Qed.

(** [CreateRelease] from the point where the title is rendered and
    the listing has answered. *)
Lemma CreateRelease_run (c : giteaClient Client) (ctx : Context) (body title : string)
  (w : World Server) (s1 : Server) (releases : list gitea.Release)
  (resp : option gitea.Response) :
  let releaseConfig := config.Project_Release (Config ctx) in
  let owner := config.Owner (config.Gitea releaseConfig) in
  let repoName := config.Name (config.Gitea releaseConfig) in
  let listing :=
    gitea.ListReleases owner repoName (gitea.mkListReleasesOptions 0 0) in
  tmpl_Apply ctx (config.NameTemplate releaseConfig) = Success title ->
  gitea.do (client c) listing (server w) = (s1, gitea.Ok releases resp) ->
  let after (call : gitea.Call) (s2 : Server) (entry : log.Entry) :=
    mkWorld s2 (calls w ++ [gitea.Called listing; gitea.Called call])
      (logs w ++ [entry]) in
  let info (msg : string) (rel : gitea.Release) :=
    log.mkEntry log.InfoLevel [("id", log.Int (gitea.ID rel))] msg in
  let debug (msg err : string) :=
    log.mkEntry log.DebugLevel [("error", log.Err (ForeignError err))] msg in
  CreateRelease c ctx body w =
  match find (hasTag (CurrentTag (Git ctx))) releases with
  | Some found =>
      let call :=
        gitea.EditRelease owner repoName (gitea.ID found)
          (gitea.mkEditReleaseOption (CurrentTag (Git ctx)) (Commit (Git ctx)) title
             (getReleaseNotes (gitea.Note found) body
                (config.ReleaseNotesMode releaseConfig))
             (Some (config.Draft releaseConfig)) (Some (PreRelease ctx))) in
      match gitea.do (client c) call s1 with
      | (s2, gitea.Ok rel _) =>
          (after call s2 (info "Gitea release updated" rel),
           Success (strconv.FormatInt (gitea.ID rel)))
      | (s2, gitea.Fail _ msg) =>
          (after call s2 (debug "error updating Gitea release" msg),
           Failure (ForeignError msg))
      end
  | None =>
      let call :=
        gitea.CreateRelease owner repoName
          (gitea.mkCreateReleaseOption (CurrentTag (Git ctx)) (Commit (Git ctx))
             title body (config.Draft releaseConfig) (PreRelease ctx)) in
      match gitea.do (client c) call s1 with
      | (s2, gitea.Ok rel _) =>
          (after call s2 (info "Gitea release created" rel),
           Success (strconv.FormatInt (gitea.ID rel)))
      | (s2, gitea.Fail _ msg) =>
          (after call s2 (debug "error creating Gitea release" msg),
           Failure (ForeignError msg))
      end
  end.
Proof.
  cbv zeta. intros Ht Hl. unfold CreateRelease. rewrite Ht.
  unfold bind at 1. unfold getExistingRelease, bind, invoke at 1. rewrite Hl.
  unfold ret at 1. fold (hasTag (CurrentTag (Git ctx))).
  destruct (find (hasTag (CurrentTag (Git ctx))) releases) as [found|].
  - unfold updateRelease, bind, invoke, emit, ret. cbn [server calls logs].
    destruct (gitea.do (client c) (gitea.EditRelease _ _ _ _) s1)
      as [s2 [rel resp2|resp2 msg]]; cbn [server calls logs];
      rewrite <- app_assoc; reflexivity.
  - unfold createRelease, bind, invoke, emit, ret. cbn [server calls logs].
    destruct (gitea.do (client c) (gitea.CreateRelease _ _ _) s1)
      as [s2 [rel resp2|resp2 msg]]; cbn [server calls logs];
      rewrite <- app_assoc; reflexivity.
Qed.

(** X11.  Once the title is rendered and the listing has answered,
    [CreateRelease] makes exactly one more call, whatever that call
    answers.  When a listed release carries the current tag, the call
    edits the first such release and sends as note what
    [getReleaseNotes] makes of the stored note, the new body and the
    configured mode; otherwise it creates a release with the body
    unchanged.  Tag, target commit, title, draft and prerelease flag
    are the same in both. *)
Theorem CreateRelease_request (c : giteaClient Client) (ctx : Context)
  (body title : string) (w : World Server) (s1 : Server)
  (releases : list gitea.Release) (resp : option gitea.Response) :
  let releaseConfig := config.Project_Release (Config ctx) in
  let listing :=
    gitea.ListReleases (config.Owner (config.Gitea releaseConfig))
      (config.Name (config.Gitea releaseConfig)) (gitea.mkListReleasesOptions 0 0) in
  tmpl_Apply ctx (config.NameTemplate releaseConfig) = Success title ->
  gitea.do (client c) listing (server w) = (s1, gitea.Ok releases resp) ->
  calls (fst (CreateRelease c ctx body w))
  = calls w ++ [gitea.Called listing;
                gitea.Called (secondCall ctx title body releases)]
  /\ server (fst (CreateRelease c ctx body w))
     = fst (gitea.do (client c) (secondCall ctx title body releases) s1).
Proof.
  cbv zeta. intros Ht Hl.
  rewrite (CreateRelease_run c ctx body title w s1 releases resp Ht Hl).
  cbv zeta. unfold secondCall.
  destruct (find (hasTag (CurrentTag (Git ctx))) releases) as [found|];
    match goal with
    | |- context [gitea.do (client c) ?call s1] =>
        destruct (gitea.do (client c) call s1) as [s2 [rel resp2|resp2 msg]]
    end; split; reflexivity.
Qed.

(** X12.  A [CreateRelease] that fails failed in one of three places.
    The title did not render: the error of the template engine is
    returned, nothing was called and nothing logged.  The title
    rendered and the listing call failed: the error of the listing is
    returned after that one call, with no log entry.  The title
    rendered, the listing answered, and the edit or create call that
    followed failed: the error of that call is returned after the two
    calls, and is logged once at debug level.  In no case is the error
    wrapped. *)
Theorem CreateRelease_failure (c : giteaClient Client) (ctx : Context)
  (body : string) (w w' : World Server) (e : error) :
  CreateRelease c ctx body w = (w', Failure e) ->
  let releaseConfig := config.Project_Release (Config ctx) in
  let listing :=
    gitea.ListReleases (config.Owner (config.Gitea releaseConfig))
      (config.Name (config.Gitea releaseConfig)) (gitea.mkListReleasesOptions 0 0) in
  (tmpl_Apply ctx (config.NameTemplate releaseConfig) = Failure e /\ w' = w)
  \/ (exists title resp msg,
         tmpl_Apply ctx (config.NameTemplate releaseConfig) = Success title
         /\ gitea.do (client c) listing (server w) = (server w', gitea.Fail resp msg)
         /\ e = ForeignError msg
         /\ calls w' = calls w ++ [gitea.Called listing]
         /\ logs w' = logs w)
  \/ (exists title s1 releases resp entry,
         tmpl_Apply ctx (config.NameTemplate releaseConfig) = Success title
         /\ gitea.do (client c) listing (server w) = (s1, gitea.Ok releases resp)
         /\ server w'
            = fst (gitea.do (client c) (secondCall ctx title body releases) s1)
         /\ gitea.Reply_err
              (snd (gitea.do (client c) (secondCall ctx title body releases) s1))
            = Some e
         /\ calls w' =
            calls w ++
            [gitea.Called listing;
             gitea.Called (secondCall ctx title body releases)]
         /\ logs w' = logs w ++ [entry]
         /\ log.Entry_Level entry = log.DebugLevel
         /\ log.Fields entry = [("error", log.Err e)]).
Proof.
  cbv zeta.
  destruct (tmpl_Apply ctx (config.NameTemplate (config.Project_Release (Config ctx))))
    as [title|err] eqn:Ht.
  - destruct (gitea.do (client c)
                (gitea.ListReleases
                   (config.Owner (config.Gitea (config.Project_Release (Config ctx))))
                   (config.Name (config.Gitea (config.Project_Release (Config ctx))))
                   (gitea.mkListReleasesOptions 0 0)) (server w))
      as [s1 [releases resp|resp msg]] eqn:Hl.
    + rewrite (CreateRelease_run c ctx body title w s1 releases resp Ht Hl).
      cbv zeta. intros H. right; right.
      exists title, s1, releases, resp.
      unfold secondCall. revert H.
      destruct (find (hasTag (CurrentTag (Git ctx))) releases) as [found|];
        match goal with
        | |- context [gitea.do (client c) ?call s1] =>
            destruct (gitea.do (client c) call s1) as [s2 [rel resp2|resp2 msg]]
        end; intros H; try discriminate H; injection H as <- <-;
        eexists; repeat split.
    + unfold CreateRelease. rewrite Ht.
      unfold bind at 1. unfold getExistingRelease, bind, invoke at 1. rewrite Hl.
      unfold ret. intros H; injection H as <- <-.
      right; left. exists title, resp, msg. repeat split.
  - unfold CreateRelease. rewrite Ht. unfold ret.
    intros H; injection H as <- <-. left. now split.
Qed.

(** X13.  The identifier a successful [CreateRelease] returns is the
    decimal form of the ID of the release in the provider's answer to
    the edit or create call, not of the release found in the listing;
    the same ID is logged, once, at info level. *)
Theorem CreateRelease_returns_answered_id (c : giteaClient Client) (ctx : Context)
  (body id : string) (w w' : World Server) :
  CreateRelease c ctx body w = (w', Success id) ->
  exists title releases rel entry,
    calls w' =
    calls w ++
    [gitea.Called
       (gitea.ListReleases
          (config.Owner (config.Gitea (config.Project_Release (Config ctx))))
          (config.Name (config.Gitea (config.Project_Release (Config ctx))))
          (gitea.mkListReleasesOptions 0 0));
     gitea.Called (secondCall ctx title body releases)]
    /\ id = strconv.FormatInt (gitea.ID rel)
    /\ logs w' = logs w ++ [entry]
    /\ log.Entry_Level entry = log.InfoLevel
    /\ log.Fields entry = [("id", log.Int (gitea.ID rel))]
    /\ exists s1 resp,
        gitea.do (client c)
          (gitea.ListReleases
             (config.Owner (config.Gitea (config.Project_Release (Config ctx))))
             (config.Name (config.Gitea (config.Project_Release (Config ctx))))
             (gitea.mkListReleasesOptions 0 0)) (server w)
        = (s1, gitea.Ok releases resp)
        /\ answersRelease (client c) (secondCall ctx title body releases) s1 rel.
Proof.
  destruct (tmpl_Apply ctx (config.NameTemplate (config.Project_Release (Config ctx))))
    as [title|err] eqn:Ht.
  - destruct (gitea.do (client c)
                (gitea.ListReleases
                   (config.Owner (config.Gitea (config.Project_Release (Config ctx))))
                   (config.Name (config.Gitea (config.Project_Release (Config ctx))))
                   (gitea.mkListReleasesOptions 0 0)) (server w))
      as [s1 [releases resp|resp msg]] eqn:Hl.
    + rewrite (CreateRelease_run c ctx body title w s1 releases resp Ht Hl).
      cbv zeta. intros H. exists title, releases. unfold secondCall. revert H.
      destruct (find (hasTag (CurrentTag (Git ctx))) releases) as [found|];
        match goal with
        | |- context [gitea.do (client c) ?call s1] =>
            destruct (gitea.do (client c) call s1)
              as [s2 [rel resp2|resp2 msg]] eqn:Hcall
        end; intros H; try discriminate H; injection H as <- <-;
        exists rel; eexists; (repeat split); exists s1, resp;
        (split; [reflexivity|]); unfold answersRelease; rewrite Hcall;
        exists resp2; reflexivity.
    + unfold CreateRelease. rewrite Ht.
      unfold bind at 1. unfold getExistingRelease, bind, invoke at 1. rewrite Hl.
      unfold ret. discriminate.
  - unfold CreateRelease. rewrite Ht. unfold ret. discriminate.
Qed.

(** ** Upload and Changelog *)

(** X14.  When [Upload] returns nil, the release identifier parsed as
    a base-10 [int64] and the one call made, the attachment of the
    file to the release of that number under the name of the artifact
    (not the name of the file), came back without error.  Nothing is
    logged. *)
Theorem Upload_nil_means_attached (c : giteaClient Client) (ctx : Context)
  (releaseID : string) (art : artifact.Artifact) (file : os.File)
  (w w' : World Server) :
  Upload c ctx releaseID art file w = (w', None) ->
  exists id answer resp,
    strconv.ParseInt releaseID = Success id
    /\ gitea.do (client c)
         (gitea.CreateReleaseAttachment
            (config.Owner (config.Gitea (config.Project_Release (Config ctx))))
            (config.Name (config.Gitea (config.Project_Release (Config ctx))))
            id file (artifact.Name art)) (server w)
       = (server w', gitea.Ok answer resp)
    /\ calls w' =
       calls w ++
       [gitea.Called
          (gitea.CreateReleaseAttachment
             (config.Owner (config.Gitea (config.Project_Release (Config ctx))))
             (config.Name (config.Gitea (config.Project_Release (Config ctx))))
             id file (artifact.Name art))]
    /\ logs w' = logs w.
Proof.
  unfold Upload.
  destruct (strconv.ParseInt releaseID) as [id|err] eqn:Hparse; [|discriminate].
  unfold bind, invoke, ret.
  destruct (gitea.do (client c) _ (server w)) as [s [answer resp|resp msg]] eqn:Hcall;
    [|discriminate].
  intros H; injection H as <-. exists id, answer, resp.
  split; [reflexivity|]. split; [exact Hcall|]. split; reflexivity.
Qed.

(** X15.  An identifier printed by [FormatInt] from an [int64], as
    [CreateRelease] returns it, always parses in [Upload]: the
    attachment call is made for the release of exactly that number,
    and [Upload] returns nil or the wrapped error of that call. *)
Theorem Upload_of_FormatInt (c : giteaClient Client) (ctx : Context)
  (i : Z) (art : artifact.Artifact) (file : os.File) (w : World Server) :
  (- 2 ^ 63 <= i < 2 ^ 63)%Z ->
  let call :=
    gitea.CreateReleaseAttachment
      (config.Owner (config.Gitea (config.Project_Release (Config ctx))))
      (config.Name (config.Gitea (config.Project_Release (Config ctx))))
      i file (artifact.Name art) in
  calls (fst (Upload c ctx (strconv.FormatInt i) art file w))
  = calls w ++ [gitea.Called call]
  /\ snd (Upload c ctx (strconv.FormatInt i) art file w)
     = match snd (gitea.do (client c) call (server w)) with
       | gitea.Ok _ _ => None
       | gitea.Fail _ msg => Some (RetriableError (ForeignError msg))
       end.
Proof.
  intros Hi. cbv zeta. unfold Upload.
  rewrite (strconv_facts.ParseInt_FormatInt i Hi).
  unfold bind, invoke, ret.
  destruct (gitea.do (client c) _ (server w)) as [s [answer resp|resp msg]];
    split; reflexivity.
Qed.

(** X16.  A [Changelog] that fails made the one compare call, which
    failed; it returns the error of that call as it is, next to an
    empty list, and logs nothing. *)
Theorem Changelog_failure (c : giteaClient Client) (ctx : Context)
  (repo : Repo) (prev current : string) (w w' : World Server)
  (entries : list ChangelogItem) (e : error) :
  Changelog c ctx repo prev current w = (w', (entries, Some e)) ->
  entries = []
  /\ logs w' = logs w
  /\ calls w' =
     calls w ++
     [gitea.Called (gitea.CompareCommits (Owner repo) (Name repo) prev current)]
  /\ exists resp msg,
      gitea.do (client c)
        (gitea.CompareCommits (Owner repo) (Name repo) prev current) (server w)
      = (server w', gitea.Fail resp msg)
      /\ e = ForeignError msg.
Proof.
  unfold Changelog, bind, invoke, ret.
  destruct (gitea.do (client c) _ (server w)) as [s [result resp|resp msg]];
    intros H; [discriminate H|]. injection H as <- <- <-.
  repeat split. exists resp, msg. now split.
Qed.

End Gitea.

End client_more.

(** * The further statements at work on the instance held in memory *)

Module more_examples.
Import context client memory.

(** [A] fails and is memorized, [C] succeeds. *)
Lemma Run_memorizes_in_order_witness :
  [Errorf "A: " stages.aDown]
  = fold_left publish.Memorize
      (publish.memorized [("A", Some stages.aDown); ("C", None)]) publish.Memo_zero
  /\ snd (publish.Run (publish.mkPipe [stages.A; stages.C]) stages.s0)
     = publish.Memo_Error
         (fold_left publish.Memorize
            (publish.memorized [("A", Some stages.aDown); ("C", None)])
            publish.Memo_zero).
Proof.
  exact (publish_more.Run_memorizes_in_order
           (publish.mkPipe [stages.A; stages.C]) stages.s0
           (publish.mkLoop stages.s0 [Errorf "A: " stages.aDown]
              [("A", Some stages.aDown); ("C", None)])
           eq_refl).
Defined.

(** [B] is not continuable: its failure is the fatal error. *)
Lemma Run_error_kinds_witness :
  let invoked := [("A", Some stages.aDown); ("B", Some stages.bDown)] in
  let e := Errorf "B: failed to publish artifacts: " stages.bDown in
  (exists pre publisher post before cause,
      [stages.A; stages.B; stages.C] = pre ++ publisher :: post
      /\ e = Errorf (publish.String publisher ++ ": failed to publish artifacts: ") cause
      /\ invoked = before ++ [(publish.String publisher, Some cause)]
      /\ map fst before = map (@publish.String unit) pre
      /\ (publish.continuable publisher = false
          \/ FailFast (publish.ctx stages.s0) = true))
  \/ (e = JoinedError (publish.memorized invoked)
      /\ publish.memorized invoked <> []
      /\ Forall2 publish.invocationOf invoked [stages.A; stages.B; stages.C]).
Proof.
  exact (publish_more.Run_error_kinds
           (publish.mkPipe [stages.A; stages.B; stages.C]) stages.s0 stages.s0
           [("A", Some stages.aDown); ("B", Some stages.bDown)]
           (Errorf "B: failed to publish artifacts: " stages.bDown)
           eq_refl).
Defined.

(** Two stages that succeed. *)
Lemma Run_nil_iff_witness :
  (@None error = None <->
   Forall (fun i : string * option error => snd i = None) [("C", None); ("C", None)])
  /\ (@None error = None ->
      map fst [("C", @None error); ("C", None)]
      = map (@publish.String unit) [stages.C; stages.C]).
Proof.
  exact (publish_more.Run_nil_iff
           (publish.mkPipe [stages.C; stages.C]) stages.s0 stages.s0
           [("C", None); ("C", None)] None eq_refl).
Defined.

(** No branch on the repository, and the instance reports main. *)
Lemma CreateFile_branch_resolution_witness :
  let w1 := mkWorld withBranch [gitea.Called (gitea.GetRepo "acme" "tap")] [] in
  (Branch repo0 <> "" -> "main" = Branch repo0 /\ w1 = world withBranch)
  /\ (Branch repo0 = "" ->
      calls w1 = [] ++ [gitea.Called (gitea.GetRepo "acme" "tap")]
      /\ ("main" = "main" /\ logs w1 = [])).
Proof.
  exact (client_more.CreateFile_branch_resolution handle ctx0 repo0
           "Formula/tool.rb" (world withBranch)
           (mkWorld withBranch [gitea.Called (gitea.GetRepo "acme" "tap")] [])
           "main" eq_refl).
Defined.

(** The file is there: it is updated under the SHA that was fetched. *)
Lemma CreateFile_nil_means_written_witness :
  exists w1 ref s write answer resp,
    CreateFile_branch handle ctx0 repoMain "Formula/tool.rb" (world withFile)
    = (w1, ref)
    /\ gitea.do (client handle) write s
       = (server (fst (CreateFile handle ctx0 author0 repoMain "class Tool"
                         "Formula/tool.rb" "update" (world withFile))),
          gitea.Ok answer resp)
    /\ calls (fst (CreateFile handle ctx0 author0 repoMain "class Tool"
                     "Formula/tool.rb" "update" (world withFile)))
       = calls w1 ++
         [gitea.Called (gitea.GetContents "acme" "tap" ref "Formula/tool.rb");
          gitea.Called write]
    /\ match gitea.do (client handle)
               (gitea.GetContents "acme" "tap" ref "Formula/tool.rb") (server w1) with
       | (s0, gitea.Ok currentFile _) =>
           s0 = s
           /\ exists opt,
               write = gitea.UpdateFile "acme" "tap" "Formula/tool.rb" opt
               /\ gitea.Update_SHA opt = gitea.Contents_SHA currentFile
       | (s0, gitea.Fail res _) =>
           s0 = s
           /\ client.notFound res = true
           /\ exists opt, write = gitea.CreateFile "acme" "tap" "Formula/tool.rb" opt
       end.
Proof.
  exact (client_more.CreateFile_nil_means_written handle ctx0 author0 repoMain
           "class Tool" "Formula/tool.rb" "update" (world withFile)
           (fst (CreateFile handle ctx0 author0 repoMain "class Tool"
                   "Formula/tool.rb" "update" (world withFile)))
           eq_refl).
Defined.

(** Two listed releases carry the tag: the first of them is edited,
    and its hand-written notes are kept. *)
Lemma CreateRelease_request_witness :
  calls (fst (CreateRelease handle ctx0 "generated notes" (world withReleases)))
  = [] ++
    [gitea.Called (gitea.ListReleases "acme" "tool" (gitea.mkListReleasesOptions 0 0));
     gitea.Called
       (gitea.EditRelease "acme" "tool" 1
          (gitea.mkEditReleaseOption "v1.0.0" "0123abc" "{{ .Tag }}"
             "hand-written notes" (Some false) (Some false)))]
  /\ server (fst (CreateRelease handle ctx0 "generated notes" (world withReleases)))
     = fst (gitea.do (client handle)
              (secondCall ctx0 "{{ .Tag }}" "generated notes"
                 [release0; release1; release2]) withReleases).
Proof.
  exact (client_more.CreateRelease_request handle ctx0 "generated notes" "{{ .Tag }}"
           (world withReleases) withReleases [release0; release1; release2] ok
           eq_refl eq_refl).
Defined.

(** The instance cannot be reached: the listing fails. *)
Lemma CreateRelease_failure_witness :
  let listing :=
    gitea.ListReleases "acme" "tool" (gitea.mkListReleasesOptions 0 0) in
  let w' := mkWorld empty [gitea.Called listing] [] in
  let e := ForeignError "connection refused" in
  (tmpl_Apply ctx0 "{{ .Tag }}" = Failure e /\ w' = world empty)
  \/ (exists title resp msg,
         tmpl_Apply ctx0 "{{ .Tag }}" = Success title
         /\ gitea.do (SDK := offline) (client handle) listing empty
            = (server w', gitea.Fail resp msg)
         /\ e = ForeignError msg
         /\ calls w' = [] ++ [gitea.Called listing]
         /\ logs w' = [])
  \/ (exists title s1 releases resp entry,
         tmpl_Apply ctx0 "{{ .Tag }}" = Success title
         /\ gitea.do (SDK := offline) (client handle) listing empty
            = (s1, gitea.Ok releases resp)
         /\ server w'
            = fst (gitea.do (SDK := offline) (client handle)
                     (secondCall ctx0 title "notes" releases) s1)
         /\ gitea.Reply_err
              (snd (gitea.do (SDK := offline) (client handle)
                      (secondCall ctx0 title "notes" releases) s1))
            = Some e
         /\ calls w' =
            [] ++ [gitea.Called listing;
                   gitea.Called (secondCall ctx0 title "notes" releases)]
         /\ logs w' = [] ++ [entry]
         /\ log.Entry_Level entry = log.DebugLevel
         /\ log.Fields entry = [("error", log.Err e)]).
Proof.
  exact (@client_more.CreateRelease_failure _ _ offline collaborators
           handle ctx0 "notes" (world empty)
           (mkWorld empty
              [gitea.Called
                 (gitea.ListReleases "acme" "tool" (gitea.mkListReleasesOptions 0 0))]
              [])
           (ForeignError "connection refused") eq_refl).
Defined.

(** A release is created: its ID is returned and logged. *)
Lemma CreateRelease_returns_answered_id_witness :
  exists title releases rel entry,
    calls (fst (CreateRelease handle ctx0 "notes" (world empty)))
    = [] ++
      [gitea.Called (gitea.ListReleases "acme" "tool" (gitea.mkListReleasesOptions 0 0));
       gitea.Called (secondCall ctx0 title "notes" releases)]
    /\ "1" = strconv.FormatInt (gitea.ID rel)
    /\ logs (fst (CreateRelease handle ctx0 "notes" (world empty))) = [] ++ [entry]
    /\ log.Entry_Level entry = log.InfoLevel
    /\ log.Fields entry = [("id", log.Int (gitea.ID rel))]
    /\ exists s1 resp,
        gitea.do (client handle)
          (gitea.ListReleases "acme" "tool" (gitea.mkListReleasesOptions 0 0)) empty
        = (s1, gitea.Ok releases resp)
        /\ answersRelease (client handle) (secondCall ctx0 title "notes" releases) s1 rel.
Proof.
  exact (client_more.CreateRelease_returns_answered_id handle ctx0 "notes" "1"
           (world empty) (fst (CreateRelease handle ctx0 "notes" (world empty)))
           eq_refl).
Defined.

(** The release is there: the tarball is attached to it. *)
Lemma Upload_nil_means_attached_witness :
  exists id answer resp,
    strconv.ParseInt "1" = Success id
    /\ gitea.do (client handle)
         (gitea.CreateReleaseAttachment "acme" "tool" id tarballFile "tool.tar.gz")
         withReleases
       = (withReleases, gitea.Ok answer resp)
    /\ calls (fst (Upload handle ctx0 "1" tarball tarballFile (world withReleases)))
       = [] ++
         [gitea.Called
            (gitea.CreateReleaseAttachment "acme" "tool" id tarballFile "tool.tar.gz")]
    /\ logs (fst (Upload handle ctx0 "1" tarball tarballFile (world withReleases))) = [].
Proof.
  exact (client_more.Upload_nil_means_attached handle ctx0 "1" tarball tarballFile
           (world withReleases)
           (fst (Upload handle ctx0 "1" tarball tarballFile (world withReleases)))
           eq_refl).
Defined.

(** The largest [int64] as identifier. *)
Lemma Upload_of_FormatInt_witness :
  calls (fst (Upload handle ctx0 (strconv.FormatInt 9223372036854775807)
                tarball tarballFile (world withReleases)))
  = [] ++
    [gitea.Called
       (gitea.CreateReleaseAttachment "acme" "tool" 9223372036854775807
          tarballFile "tool.tar.gz")]
  /\ snd (Upload handle ctx0 (strconv.FormatInt 9223372036854775807)
            tarball tarballFile (world withReleases))
     = Some (RetriableError (ForeignError "release not found")).
Proof.
  exact (client_more.Upload_of_FormatInt handle ctx0 9223372036854775807
           tarball tarballFile (world withReleases)
           (conj (fun H : (- 2 ^ 63 ?= 9223372036854775807)%Z = Gt =>
                    eq_ind Lt (fun c => match c with Gt => False | _ => True end) I Gt H)
                 (eq_refl : (9223372036854775807 ?= 2 ^ 63)%Z = Lt))).
Defined.

(** The instance cannot be reached: the compare call fails. *)
Lemma Changelog_failure_witness :
  let w' := mkWorld empty
              [gitea.Called (gitea.CompareCommits "acme" "tap" "v0.9.0" "v1.0.0")] [] in
  @nil ChangelogItem = []
  /\ logs w' = []
  /\ calls w' = [] ++ [gitea.Called (gitea.CompareCommits "acme" "tap" "v0.9.0" "v1.0.0")]
  /\ exists resp msg,
      gitea.do (SDK := offline) (client handle)
        (gitea.CompareCommits "acme" "tap" "v0.9.0" "v1.0.0") empty
      = (server w', gitea.Fail resp msg)
      /\ ForeignError "connection refused" = ForeignError msg.
Proof.
  exact (@client_more.Changelog_failure _ _ offline handle ctx0 repo0
           "v0.9.0" "v1.0.0" (world empty)
           (mkWorld empty
              [gitea.Called (gitea.CompareCommits "acme" "tap" "v0.9.0" "v1.0.0")] [])
           [] (ForeignError "connection refused") eq_refl).
Defined.

(** In fail-fast mode the continuable [A] is fatal and [C] never runs. *)
Lemma Run_fail_fast_witness :
  (snd (fst (publish.Run (Memo := list error)
               (publish.mkPipe [stages.A; stages.C]) stages.sFast))
   = map (fun q => (publish.String q, None)) [stages.A; stages.C]
   /\ snd (publish.Run (Memo := list error)
             (publish.mkPipe [stages.A; stages.C]) stages.sFast)
      = publish.Memo_Error publish.Memo_zero)
  \/ (exists pre q post cause,
         [stages.A; stages.C] = pre ++ q :: post
         /\ snd (fst (publish.Run (Memo := list error)
                        (publish.mkPipe [stages.A; stages.C]) stages.sFast))
            = map (fun q => (publish.String q, None)) pre
              ++ [(publish.String q, Some cause)]
         /\ snd (publish.Run (Memo := list error)
                   (publish.mkPipe [stages.A; stages.C]) stages.sFast)
            = Some (Errorf (publish.String q ++ ": failed to publish artifacts: ")
                      cause)).
Proof.
  refine (publish_more.Run_fail_fast (Memo := list error)
            (publish.mkPipe [stages.A; stages.C]) stages.sFast eq_refl _).
  intros q s1 [<-|[<-|[]]] H; exact H.
Defined.

(** Two continuable stages that fail, outside fail-fast mode: both run. *)
Lemma Run_all_continuable_witness :
  exists l,
    publish.range (Memo := list error) [stages.A; stages.A] (publish.start stages.s0)
    = publish.Next l
    /\ map fst (snd (fst (publish.Run (publish.mkPipe [stages.A; stages.A]) stages.s0)))
       = ["A"; "A"]
    /\ snd (publish.Run (publish.mkPipe [stages.A; stages.A]) stages.s0)
       = publish.Memo_Error (publish.memo l).
Proof.
  refine (publish_more.Run_all_continuable (Memo := list error)
            (publish.mkPipe [stages.A; stages.A]) stages.s0 eq_refl _ _).
  - intros q s1 [<-|[<-|[]]] H; exact H.
  - intros q [<-|[<-|[]]]; reflexivity.
Defined.

(** The lookup fails without a response: no status code in the log. *)
Lemma getDefaultBranch_outcome_witness :
  let w' := fst (getDefaultBranch handle ctx0 repo0 (world empty)) in
  calls w' = [] ++ [gitea.Called (gitea.GetRepo "acme" "tap")]
  /\ ("" = ""
      /\ exists res msg,
          gitea.do (client handle) (gitea.GetRepo "acme" "tap") empty
          = (server w', gitea.Fail res msg)
          /\ ForeignError "connection refused" = ForeignError msg
          /\ logs w' =
             [] ++
             [log.mkEntry log.WarnLevel
                ([("projectID", log.Str "acme/tap")]
                 ++ match res with
                    | Some res => [("statusCode", log.Int (gitea.StatusCode res))]
                    | None => []
                    end
                 ++ [("error", log.Err (ForeignError "connection refused"))])
                "error checking for default branch"]).
Proof.
  exact (client_more.getDefaultBranch_outcome handle ctx0 repo0 (world empty)
           (fst (getDefaultBranch handle ctx0 repo0 (world empty)))
           "" (Some (ForeignError "connection refused")) eq_refl).
Defined.

End more_examples.
